(** * A shallow embedding of the LinkedIn scraper (src/fetch_job/job_search.py)
    and of the workflow orchestrator (src/run_workflow.py).

    Python [str] values are modelled as [string]; a character is read as its
    Latin-1 code point, which covers the behaviour of [str.lower], [str.split]
    and the regex classes [\s] and [\d] on that range. *)

From Stdlib Require Import String Ascii List ZArith Bool Lia.
Import ListNotations.
Open Scope string_scope.

(* ------------------------------------------------------------------ *)
(** ** Python string primitives *)

Module Py.

Definition code (c : ascii) : nat := nat_of_ascii c.

(** [str.lower] on one character: ASCII and Latin-1 upper-case letters
    (U+00C0..U+00DE except the multiplication sign U+00D7). *)
Definition lower_char (c : ascii) : ascii :=
  let n := code c in
  if (Nat.leb 65 n && Nat.leb n 90) || (Nat.leb 192 n && Nat.leb n 222 && negb (Nat.eqb n 215))
  then ascii_of_nat (n + 32) else c.

Fixpoint lower (s : string) : string :=
  match s with
  | EmptyString => EmptyString
  | String c t => String (lower_char c) (lower t)
  end.

(** [str.isspace] (and the regex class [\s]) on Latin-1. *)
Definition is_space (c : ascii) : bool :=
  let n := code c in
  (Nat.leb 9 n && Nat.leb n 13) || (Nat.leb 28 n && Nat.leb n 32) || Nat.eqb n 133 || Nat.eqb n 160.

(** The regex class [\d]: decimal digits (none outside ASCII in Latin-1). *)
Definition is_digit (c : ascii) : bool :=
  let n := code c in Nat.leb 48 n && Nat.leb n 57.

Fixpoint starts_with (p s : string) : bool :=
  match p, s with
  | EmptyString, _ => true
  | String a p', String b s' => Ascii.eqb a b && starts_with p' s'
  | String _ _, EmptyString => false
  end.

(** [needle in hay]. *)
Fixpoint contains (needle hay : string) : bool :=
  starts_with needle hay ||
  match hay with
  | EmptyString => false
  | String _ t => contains needle t
  end.

(** [str.split()] with no separator: maximal runs of non-space characters. *)
Fixpoint split_aux (cur : string) (s : string) : list string :=
  match s with
  | EmptyString => if String.eqb cur "" then [] else [cur]
  | String c t =>
      if is_space c
      then (if String.eqb cur "" then [] else [cur]) ++ split_aux "" t
      else split_aux (cur ++ String c EmptyString) t
  end.

Definition split (s : string) : list string := split_aux "" s.

(** Longest prefix whose characters satisfy [p], and the rest. *)
Fixpoint span (p : ascii -> bool) (s : string) : string * string :=
  match s with
  | EmptyString => (EmptyString, EmptyString)
  | String c t =>
      if p c then let (a, b) := span p t in (String c a, b) else (EmptyString, s)
  end.

(** The value of a string of decimal digits ([int(d)] below its digit limit, see [int_of_digits]). *)
Fixpoint int_aux (acc : Z) (s : string) : Z :=
  match s with
  | EmptyString => acc
  | String c t => int_aux (acc * 10 + Z.of_nat (code c - 48)) t
  end.

Definition int (s : string) : Z := int_aux 0 s.

End Py.

(* ------------------------------------------------------------------ *)
(** ** The regular expressions of the scraper

    Every pattern the scraper uses is a sequence of literals, [\s+] and one
    capturing [(\d+)].  In all of them a repeated class is followed by a
    token whose first character lies outside that class ([\d+] by [\s+],
    [\s+] by a letter or by [\d+]), so the backtracking matcher of [re]
    accepts exactly what the greedy, non-backtracking matcher below accepts,
    with the same capture.  A trailing optional [s?] never changes whether
    a match exists nor the captured group, and is left out. *)

Module Re.

Inductive tok := Lit (s : string) | Spaces | Digits.

(** Match at the start of the text; [Some g] on success, [g] the captured
    digits when the pattern has a group. *)
Fixpoint match_at (ts : list tok) (s : string) : option (option string) :=
  match ts with
  | [] => Some None
  | Lit l :: r =>
      if Py.starts_with l s then match_at r (substring (String.length l) (String.length s) s)
      else None
  | Spaces :: r =>
      let (w, rest) := Py.span Py.is_space s in
      if String.eqb w "" then None else match_at r rest
  | Digits :: r =>
      let (d, rest) := Py.span Py.is_digit s in
      if String.eqb d "" then None
      else match match_at r rest with Some _ => Some (Some d) | None => None end
  end.

(** The group of the leftmost match: [re.findall(p, s)[0]] when the list is
    not empty, [re.search(p, s).group(1)] likewise. *)
Fixpoint first_group (ts : list tok) (s : string) : option string :=
  match match_at ts s with
  | Some (Some g) => Some g
  | _ =>
      match s with
      | EmptyString => None
      | String _ t => first_group ts t
      end
  end.

End Re.

(* ------------------------------------------------------------------ *)
(** ** Exceptions *)

(** Python exceptions, split as the [except] clauses split them. *)
Inductive py_exc :=
  | RequestException (msg : string)     (* requests.exceptions.RequestException *)
  | OtherException (msg : string).      (* any other Exception *)

(** Computations that may raise. *)
Inductive exc_result (A : Type) :=
  | Ok (a : A)
  | Err (e : py_exc).
Arguments Ok {A} a.
Arguments Err {A} e.

Definition bind {A B} (m : exc_result A) (k : A -> exc_result B) : exc_result B :=
  match m with Ok a => k a | Err e => Err e end.

Notation "x <- m ;; k" := (bind m (fun x => k)) (at level 61, m at next level, right associativity).

Definition try_except {A} (m : exc_result A) (h : py_exc -> exc_result A) : exc_result A :=
  match m with Ok a => Ok a | Err e => h e end.

(* ------------------------------------------------------------------ *)
(** ** Applicant-count extraction
    ([get_linkedin_applicant_count_from_soup], and the identical text scan
    of [get_linkedin_applicant_count]) *)

Definition applicant_patterns : list (list Re.tok) :=
  [ (* r'(\d+)\s+applicants?' *)
    [Re.Digits; Re.Spaces; Re.Lit "applicant"];
    (* r'be\s+among\s+the\s+first\s+(\d+)\s+applicants?' *)
    [Re.Lit "be"; Re.Spaces; Re.Lit "among"; Re.Spaces; Re.Lit "the"; Re.Spaces;
     Re.Lit "first"; Re.Spaces; Re.Digits; Re.Spaces; Re.Lit "applicant"];
    (* r'over\s+(\d+)\s+applicants?' *)
    [Re.Lit "over"; Re.Spaces; Re.Digits; Re.Spaces; Re.Lit "applicant"];
    (* r'(\d+)\s+people\s+applied' *)
    [Re.Digits; Re.Spaces; Re.Lit "people"; Re.Spaces; Re.Lit "applied"] ].

(** [int(g)] on a captured group of decimal digits: CPython refuses to
    convert more than [sys.get_int_max_str_digits()] digits (4300 by
    default) and raises [ValueError]. *)
Definition int_max_str_digits : nat := 4300.

Definition int_of_digits (g : string) : exc_result Z :=
  if Nat.leb (String.length g) int_max_str_digits then Ok (Py.int g)
  else Err (OtherException "ValueError: Exceeds the limit (4300 digits) for integer string conversion").

(** [for pattern in applicant_patterns: matches = re.findall(...); if
    matches: return int(matches[0])]: [None] when no pattern matches, else
    the outcome of [int] on the first group. *)
Fixpoint scan_patterns (ps : list (list Re.tok)) (page_text : string)
  : option (exc_result Z) :=
  match ps with
  | [] => None
  | p :: ps' =>
      match Re.first_group p page_text with
      | Some g => Some (int_of_digits g)
      | None => scan_patterns ps' page_text
      end
  end.

(** [soup.get_text()] is the argument; the result is [Ok None] for
    Python's [None], and [Err] when [int] raises. *)
Definition applicant_count_from_text (text : string) : exc_result (option Z) :=
  let page_text := Py.lower text in
  match scan_patterns applicant_patterns page_text with
  | Some r => n <- r;; Ok (Some n)
  | None =>
      if Py.contains "be among the first" page_text && Py.contains "applicant" page_text
      then Ok (Some 5%Z)
      else Ok None
  end.

(* ------------------------------------------------------------------ *)
(** ** Relevance filter ([is_job_relevant])

    The threshold [matches >= len(search_words) * 0.6] is read over the
    rationals: [10 * matches >= 6 * len]. *)

Definition relevant_keywords : list string :=
  [ "communications"; "communication"; "corporate communications";
    "internal communications"; "external communications";
    "strategic communications"; "public relations"; "pr";
    "media relations"; "content strategy"; "brand communications";
    "marketing communications"; "marcom"; "corporate affairs" ].

Definition irrelevant_keywords : list string :=
  [ "talent manager"; "people"; "culture"; "hr"; "human resources";
    "administrative assistant"; "admin"; "care facilitator";
    "case manager"; "events manager"; "retail"; "sales";
    "customer service"; "account manager" ].

Definition word_matches (title_words : list string) (word : string) : bool :=
  existsb (fun title_word => Py.contains word title_word) title_words.

Definition is_job_relevant (job_title search_keywords : string) : bool :=
  let job_title_lower := Py.lower job_title in
  let search_lower := Py.lower search_keywords in
  if Py.contains "corporate communications" search_lower then
    if existsb (fun irr => Py.contains irr job_title_lower) irrelevant_keywords then false
    else if existsb (fun rel => Py.contains rel job_title_lower) relevant_keywords then true
    else false
  else
    let search_words := Py.split search_lower in
    let title_words := Py.split job_title_lower in
    let matches :=
      fold_left (fun acc word => if word_matches title_words word then acc + 1 else acc)
                search_words 0 in
    Nat.leb (6 * List.length search_words) (10 * matches).

Example ac_ex1 : applicant_count_from_text "Be among the first 25 applicants" = Ok (Some 25%Z).
Proof. reflexivity. Qed.
Example ac_ex2 : applicant_count_from_text "Be among the first to apply. No applicants yet" = Ok (Some 5%Z).
Proof. reflexivity. Qed.
Example ac_ex3 : applicant_count_from_text "Over 200 applicants" = Ok (Some 200%Z).
Proof. reflexivity. Qed.
Example rel_ex1 : is_job_relevant "Talent Manager, Communications" "Corporate Communications" = false.
Proof. reflexivity. Qed.
Example rel_ex2 : is_job_relevant "Senior Data Scientist" "data scientist" = true.
Proof. reflexivity. Qed.
Example rel_ex3 : is_job_relevant "Software Engineer" "data scientist" = false.
Proof. reflexivity. Qed.

(* ------------------------------------------------------------------ *)
(** ** Job records, documents and HTTP responses *)

(** A job dict as built by [extract_linkedin_job_data]: every key is
    present; [None] is Python's [None]. *)
Record job := mkJob {
  title : string;
  company : string;
  location : string;
  link : option string;
  job_id : option string;
  applicants : option Z;
  posting_date : option string;
  source : string;
  scraped_at : string;
  job_description : option string;
  job_type : option string;
  seniority_level : option string;
  company_size : option string;
  industry : option string;
  skills_required : option string;
  salary_range : option string }.

(** The dict returned by [extract_job_details]. *)
Record job_details := mkDetails {
  d_job_type : option string;
  d_seniority_level : option string;
  d_company_size : option string;
  d_industry : option string;
  d_skills_required : option string;
  d_salary_range : option string }.

(** A job card of a listing page, by what its element lookups return:
    [None] when the element is absent; for the link and date elements the
    inner option is the attribute ([get('href')], [get('datetime')]). *)
Record card := mkCard {
  card_title : option string;
  card_company : option string;
  card_location : option string;
  card_link : option (option string);
  card_date : option (option string) }.

(** A parsed document ([BeautifulSoup(response.content)]), by what the
    scraper's lookups on it return: [soup.get_text()], the four job-card
    [find_all] queries of the listing loop, and the results of
    [extract_job_description] and [extract_job_details] (selector searches
    over the HTML tree, whose internals no claim here depends on). *)
Record soup := mkSoup {
  soup_text : string;
  cards_job_search_card : list card;     (* div.job-search-card *)
  cards_list_item : list card;           (* div.jobs-search-results__list-item *)
  cards_result_card_div : list card;     (* div.result-card *)
  cards_result_card_li : list card;      (* li.result-card *)
  soup_description : string;
  soup_details : job_details }.

Definition extract_job_description (s : soup) : string := soup_description s.
Definition extract_job_details (s : soup) : job_details := soup_details s.

Definition get_linkedin_applicant_count_from_soup (s : soup) : exc_result (option Z) :=
  applicant_count_from_text (soup_text s).

(** A JSON body, by what [get_detailed_job_info] reads from it:
    [json.loads] fails, or an object with no ['description'] key, or one
    whose [['description']['text']] raises, or one where it is a text. *)
Inductive json_body :=
  | JInvalid
  | JNoDescription
  | JBadDescription
  | JDescription (text : string).

Record response := mkResponse {
  status_code : Z;
  reason_msg : string;        (* [str(e)] of the error [raise_for_status] raises *)
  content_type : string;      (* [response.headers.get('content-type', '')] *)
  content : soup;
  json : json_body }.

(** What [session.get] does: raise, or return a response. *)
Inductive outcome :=
  | Raised (e : py_exc)
  | Responded (r : response).

Inductive request :=
  | ListingReq (url : string) (start : Z)    (* a search page, [params['start']] *)
  | PageReq (url : string).                  (* a job page or the API endpoint *)

Definition session_get (o : outcome) : exc_result response :=
  match o with Raised e => Err e | Responded r => Ok r end.

Definition raise_for_status (r : response) : exc_result unit :=
  if (400 <=? status_code r)%Z && (status_code r <? 600)%Z
  then Err (RequestException (reason_msg r)) else Ok tt.

(** Python truthiness of an optional string. *)
Definition truthy (o : option string) : bool :=
  match o with Some s => negb (String.eqb s "") | None => false end.

(* ------------------------------------------------------------------ *)
(** ** Extraction of a job card ([extract_linkedin_job_data] with
    [fetch_details=False], the only way the scraper calls it) *)

Definition job_id_pattern : list Re.tok := [Re.Lit "/jobs/view/"; Re.Digits].

Definition extract_linkedin_job_data (now : string) (c : card) : job :=
  let title := match card_title c with Some t => t | None => "N/A" end in
  let company := match card_company c with Some t => t | None => "N/A" end in
  let location := match card_location c with Some t => t | None => "N/A" end in
  let job_link := match card_link c with Some h => h | None => Some "N/A" end in
  let posting_date := match card_date c with Some d => d | None => Some "N/A" end in
  let job_id :=
    match job_link with
    | Some l =>
        if truthy job_link && Py.contains "linkedin.com/jobs/view/" l
        then Re.first_group job_id_pattern l else None
    | None => None
    end in
  {| title := title; company := company; location := location; link := job_link;
     job_id := job_id; applicants := None; posting_date := posting_date;
     source := "LinkedIn"; scraped_at := now;
     job_description := None; job_type := None; seniority_level := None;
     company_size := None; industry := None; skills_required := None;
     salary_range := None |}.

(* ------------------------------------------------------------------ *)
(** ** Detail fetch ([get_detailed_job_info])

    [get k req] is the session's answer to the [k]-th request of this call
    (0: the job page, 1: the API endpoint). *)

Definition placeholder : string := "Could not fetch job description".

Definition set_description (d : option string) (j : job) : job :=
  {| title := title j; company := company j; location := location j; link := link j;
     job_id := job_id j; applicants := applicants j; posting_date := posting_date j;
     source := source j; scraped_at := scraped_at j;
     job_description := d; job_type := job_type j; seniority_level := seniority_level j;
     company_size := company_size j; industry := industry j;
     skills_required := skills_required j; salary_range := salary_range j |}.

(** [detailed_job.update(job_details)]. *)
Definition update_details (dt : job_details) (j : job) : job :=
  {| title := title j; company := company j; location := location j; link := link j;
     job_id := job_id j; applicants := applicants j; posting_date := posting_date j;
     source := source j; scraped_at := scraped_at j;
     job_description := job_description j; job_type := d_job_type dt;
     seniority_level := d_seniority_level dt; company_size := d_company_size dt;
     industry := d_industry dt; skills_required := d_skills_required dt;
     salary_range := d_salary_range dt |}.

Definition set_applicants (a : option Z) (j : job) : job :=
  {| title := title j; company := company j; location := location j; link := link j;
     job_id := job_id j; applicants := a; posting_date := posting_date j;
     source := source j; scraped_at := scraped_at j;
     job_description := job_description j; job_type := job_type j;
     seniority_level := seniority_level j; company_size := company_size j;
     industry := industry j; skills_required := skills_required j;
     salary_range := salary_range j |}.

(** [job_url.split('?')[0]]. *)
Fixpoint before_qmark (s : string) : string :=
  match s with
  | EmptyString => EmptyString
  | String c t => if Ascii.eqb c "?"%char then EmptyString else String c (before_qmark t)
  end.

Definition clean_job_url (l : string) : string :=
  let u := before_qmark l in
  if Py.starts_with "http" u then u else "https://www.linkedin.com" ++ u.

(** The body of the first [try], run on the dict [detailed_job]: the dict
    as the body leaves it (its assignments are in place, and stay when a
    later line raises) and the exception raised, if any. *)
Definition direct_fetch_run (get : nat -> request -> outcome) (l : string) (detailed : job)
  : job * option py_exc :=
  match session_get (get 0 (PageReq (clean_job_url l))) with
  | Err e => (detailed, Some e)
  | Ok response =>
      match raise_for_status response with
      | Err e => (detailed, Some e)
      | Ok _ =>
          let soup := content response in
          let d1 := set_description (Some (extract_job_description soup)) detailed in
          let d2 := update_details (extract_job_details soup) d1 in
          match applicants d2 with
          | None =>
              match get_linkedin_applicant_count_from_soup soup with
              | Ok a => (set_applicants a d2, None)
              | Err e => (d2, Some e)
              end
          | Some _ => (d2, None)
          end
      end
  end.

(** The outcome of the first [try]'s body. *)
Definition direct_fetch (get : nat -> request -> outcome) (l : string) (detailed : job)
  : exc_result job :=
  match direct_fetch_run get l detailed with
  | (d, None) => Ok d
  | (_, Some e) => Err e
  end.

(** The body of the inner [try] (the API endpoint). *)
Definition api_fetch (get : nat -> request -> outcome) (id : string) (detailed : job)
  : exc_result job :=
  response <- session_get
                (get 1 (PageReq ("https://www.linkedin.com/jobs-guest/jobs/api/jobPosting/" ++ id)));;
  _ <- raise_for_status response;;
  if Py.contains "application/json" (content_type response) then
    match json response with
    | JInvalid => Err (OtherException "JSONDecodeError")
    | JNoDescription => Ok detailed
    | JBadDescription => Err (OtherException "KeyError: 'text'")
    | JDescription t => Ok (set_description (Some t) detailed)
    end
  else Ok (set_description (Some (extract_job_description (content response))) detailed).

Definition get_detailed_job_info (get : nat -> request -> outcome) (basic_job : job)
  : exc_result job :=
  let detailed_job := basic_job in
  if negb (truthy (link basic_job)) then Ok detailed_job
  else
    let l := match link basic_job with Some l => l | None => "" end in
    let (detailed_job, raised) := direct_fetch_run get l detailed_job in
    match raised with
    | None => Ok detailed_job
    | Some (RequestException _) =>
        if truthy (job_id basic_job) then
          let id := match job_id basic_job with Some i => i | None => "" end in
          try_except (api_fetch get id detailed_job)
            (fun _ => Ok (set_description (Some placeholder) detailed_job))
        else Ok (set_description (Some placeholder) detailed_job)
    | Some (OtherException _) => Ok (set_description (Some placeholder) detailed_job)
    end.

(* ------------------------------------------------------------------ *)
(** ** The listing loops

    The session answers the [n]-th listing request of the whole search with
    [lget n req]; [clock n] is [datetime.now().isoformat()] while the
    answer to that request is being processed.  The [while] loops run on
    fuel: every run of the Python loop is the run with enough fuel, and the
    theorems below hold for every amount of fuel. *)

Section Listing.

Variable lget : nat -> request -> outcome.
Variable clock : nat -> string.
Variable keywords : string.
Variable max_applicants : Z.

Definition applicants_ok (a : option Z) : bool :=
  match a with None => true | Some n => (n <=? max_applicants)%Z end.

(** The local variables of [search_single_location]. *)
Record loop_vars := mkLV {
  jobs_found : Z;
  location_basic_jobs : list job;
  rate_limit_errors : Z;
  current_start : Z;
  current_pages_without_results : Z;
  req_no : nat }.

Definition with_req (n : nat) (v : loop_vars) : loop_vars :=
  mkLV (jobs_found v) (location_basic_jobs v) (rate_limit_errors v)
       (current_start v) (current_pages_without_results v) n.

Definition with_counters (rate start pwr : Z) (v : loop_vars) : loop_vars :=
  mkLV (jobs_found v) (location_basic_jobs v) rate start pwr (req_no v).

Definition max_pages_without_results : Z := 2.
Definition max_rate_limit_errors : Z := 3.

(** The [for card in job_cards] loop; returns the variables and
    [page_jobs_found]. *)
Fixpoint process_cards (budget : Z) (now : string) (cards : list card)
         (v : loop_vars) (page_jobs_found : Z) : loop_vars * Z :=
  match cards with
  | [] => (v, page_jobs_found)
  | c :: cs =>
      let job_data := extract_linkedin_job_data now c in
      if negb (String.eqb (title job_data) "N/A") && is_job_relevant (title job_data) keywords
      then
        if applicants_ok (applicants job_data) then
          let v' := mkLV (jobs_found v + 1) (location_basic_jobs v ++ [job_data])
                         (rate_limit_errors v) (current_start v)
                         (current_pages_without_results v) (req_no v) in
          if (budget <=? jobs_found v')%Z then (v', page_jobs_found + 1)%Z
          else process_cards budget now cs v' (page_jobs_found + 1)
        else process_cards budget now cs v page_jobs_found
      else process_cards budget now cs v page_jobs_found
  end.

Definition first_nonempty (s : soup) : list card :=
  match cards_job_search_card s with
  | [] => match cards_list_item s with
          | [] => match cards_result_card_div s with
                  | [] => cards_result_card_li s
                  | l => l
                  end
          | l => l
          end
  | l => l
  end.

(** [except requests.exceptions.RequestException as e] in the page loop;
    [None] is [continue], [Some v] is [break]. *)
Definition on_request_exception (msg : string) (v : loop_vars) : loop_vars + loop_vars :=
  if Py.contains "429" msg then
    inl (with_counters (rate_limit_errors v + 1) (current_start v)
                       (current_pages_without_results v) v)
  else
    let pwr := (current_pages_without_results v + 1)%Z in
    if (max_pages_without_results <=? pwr)%Z
    then inr (with_counters (rate_limit_errors v) (current_start v) pwr v)
    else inl (with_counters (rate_limit_errors v) (current_start v + 25) pwr v).

(** The [while] loop of one endpoint. *)
Fixpoint page_loop (fuel : nat) (budget : Z) (base_url : string) (v : loop_vars) : loop_vars :=
  match fuel with
  | O => v
  | S fuel' =>
      if (jobs_found v <? budget)%Z
         && (current_pages_without_results v <? max_pages_without_results)%Z
         && (rate_limit_errors v <? max_rate_limit_errors)%Z
      then
        let n := req_no v in
        let v := with_req (S n) v in
        match lget n (ListingReq base_url (current_start v)) with
        | Raised (RequestException msg) =>
            match on_request_exception msg v with
            | inl v' => page_loop fuel' budget base_url v'
            | inr v' => v'
            end
        | Raised (OtherException _) =>
            page_loop fuel' budget base_url
              (with_counters (rate_limit_errors v) (current_start v + 25)
                             (current_pages_without_results v + 1) v)
        | Responded r =>
            if (status_code r =? 429)%Z then
              page_loop fuel' budget base_url
                (with_counters (rate_limit_errors v + 1) (current_start v)
                               (current_pages_without_results v) v)
            else
              match raise_for_status r with
              | Err (RequestException msg) | Err (OtherException msg) =>
                  match on_request_exception msg v with
                  | inl v' => page_loop fuel' budget base_url v'
                  | inr v' => v'
                  end
              | Ok _ =>
                  match first_nonempty (content r) with
                  | [] =>
                      page_loop fuel' budget base_url
                        (with_counters (rate_limit_errors v) (current_start v + 25)
                                       (current_pages_without_results v + 1) v)
                  | job_cards =>
                      let (v', page_jobs_found) := process_cards budget (clock n) job_cards v 0 in
                      let pwr := if (page_jobs_found =? 0)%Z
                                 then (current_pages_without_results v' + 1)%Z else 0%Z in
                      page_loop fuel' budget base_url
                        (with_counters (rate_limit_errors v') (current_start v' + 25) pwr v')
                  end
              end
        end
      else v
  end.

Definition search_urls : list string :=
  [ "https://www.linkedin.com/jobs-guest/jobs/api/seeMoreJobPostings/search";
    "https://www.linkedin.com/jobs/search" ].

Fixpoint endpoint_loop (fuel : nat) (budget : Z) (urls : list string) (v : loop_vars) : loop_vars :=
  match urls with
  | [] => v
  | base_url :: urls' =>
      if (max_rate_limit_errors <=? rate_limit_errors v)%Z then v
      else
        let v := with_counters (rate_limit_errors v) 0 0 v in
        let v' := page_loop fuel budget base_url v in
        if (0 <? jobs_found v')%Z then v' else endpoint_loop fuel budget urls' v'
  end.

(** [search_single_location]: the jobs found and the next request number. *)
Definition search_single_location (fuel : nat) (budget : Z) (n : nat) : list job * nat :=
  let v := endpoint_loop fuel budget search_urls (mkLV 0 [] 0 0 0 n) in
  (location_basic_jobs v, req_no v).

(** *** Basic mode ([search_single_location_basic])

    The loop appends to [self.results] directly; the state is that list,
    [jobs_found], [start], [pages_without_results] and the request
    number. *)

Record basic_vars := mkBV {
  b_results : list job;
  b_jobs_found : Z;
  b_start : Z;
  b_pages_without_results : Z;
  b_req_no : nat }.

Definition basic_max_pages_without_results : Z := 3.

Definition basic_placeholders (j : job) : job :=
  let nf := Some "Not fetched in basic mode" in
  {| title := title j; company := company j; location := location j; link := link j;
     job_id := job_id j; applicants := applicants j; posting_date := posting_date j;
     source := source j; scraped_at := scraped_at j;
     job_description := Some "Use detailed mode to get full job descriptions";
     job_type := nf; seniority_level := nf; company_size := nf; industry := nf;
     skills_required := nf; salary_range := nf |}.

Fixpoint process_cards_basic (budget : Z) (now : string) (cards : list card)
         (v : basic_vars) (page_jobs_found : Z) : basic_vars * Z :=
  match cards with
  | [] => (v, page_jobs_found)
  | c :: cs =>
      let job_data := extract_linkedin_job_data now c in
      if is_job_relevant (title job_data) keywords then
        let job_data := basic_placeholders job_data in
        if applicants_ok (applicants job_data) then
          let v' := mkBV (b_results v ++ [job_data]) (b_jobs_found v + 1)
                         (b_start v) (b_pages_without_results v) (b_req_no v) in
          if (budget <=? b_jobs_found v')%Z then (v', page_jobs_found + 1)%Z
          else process_cards_basic budget now cs v' (page_jobs_found + 1)
        else process_cards_basic budget now cs v page_jobs_found
      else process_cards_basic budget now cs v page_jobs_found
  end.

Definition basic_url : string :=
  "https://www.linkedin.com/jobs-guest/jobs/api/seeMoreJobPostings/search".

Definition with_pages (start pwr : Z) (v : basic_vars) : basic_vars :=
  mkBV (b_results v) (b_jobs_found v) start pwr (b_req_no v).

Fixpoint basic_loop (fuel : nat) (budget : Z) (v : basic_vars) : basic_vars :=
  match fuel with
  | O => v
  | S fuel' =>
      if (b_jobs_found v <? budget)%Z
         && (b_pages_without_results v <? basic_max_pages_without_results)%Z
      then
        let n := b_req_no v in
        let v := mkBV (b_results v) (b_jobs_found v) (b_start v)
                      (b_pages_without_results v) (S n) in
        let on_request_error :=
          let pwr := (b_pages_without_results v + 1)%Z in
          if (basic_max_pages_without_results <=? pwr)%Z then with_pages (b_start v) pwr v
          else basic_loop fuel' budget (with_pages (b_start v + 25) pwr v) in
        match lget n (ListingReq basic_url (b_start v)) with
        | Raised (RequestException _) => on_request_error
        | Raised (OtherException _) =>
            basic_loop fuel' budget
              (with_pages (b_start v + 25) (b_pages_without_results v + 1) v)
        | Responded r =>
            match raise_for_status r with
            | Err _ => on_request_error
            | Ok _ =>
                match cards_job_search_card (content r) with
                | [] =>
                    basic_loop fuel' budget
                      (with_pages (b_start v + 25) (b_pages_without_results v + 1) v)
                | job_cards =>
                    let (v', page_jobs_found) :=
                      process_cards_basic budget (clock n) job_cards v 0 in
                    let pwr := if (page_jobs_found =? 0)%Z
                               then (b_pages_without_results v' + 1)%Z else 0%Z in
                    basic_loop fuel' budget (with_pages (b_start v' + 25) pwr v')
                end
            end
        end
      else v
  end.

(** [search_single_location_basic] on [self.results]. *)
Definition search_single_location_basic (fuel : nat) (budget : Z) (results : list job) (n : nat)
  : list job * nat :=
  let v := basic_loop fuel budget (mkBV results 0 0 0 n) in
  (b_results v, b_req_no v).

End Listing.

(* ------------------------------------------------------------------ *)
(** ** The two search entry points

    [location] is a Python list (the Canada case) or a string. *)

Inductive location_arg :=
  | LocList (l : list string)
  | LocStr (s : string).

Definition locations_to_search (loc : location_arg) : list string :=
  match loc with
  | LocList l => l
  | LocStr s => if String.eqb s "" then [""] else [s]
  end.

(** Python's [l[:n]]. *)
Definition py_take {A} (n : Z) (l : list A) : list A :=
  if (0 <=? n)%Z then firstn (Z.to_nat n) l
  else firstn (List.length l - Z.to_nat (- n)) l.

Section Search.

Variable lget : nat -> request -> outcome.
Variable clock : nat -> string.
(** [dget i k req]: the session's answer to request [k] of the detail fetch
    of the [i]-th job ([enumerate(basic_jobs, 1)]). *)
Variable dget : nat -> nat -> request -> outcome.
Variable keywords : string.
Variable max_applicants : Z.
Variable fuel : nat.

Fixpoint location_loop (max_results : Z) (nlocs : nat) (locs : list string)
         (basic_jobs : list job) (n : nat) : list job :=
  match locs with
  | [] => basic_jobs
  | _ :: locs' =>
      let (location_jobs, n') :=
        search_single_location lget clock keywords max_applicants fuel
          (max_results / Z.of_nat nlocs) n in
      let basic_jobs := (basic_jobs ++ location_jobs)%list in
      if (max_results <=? Z.of_nat (List.length basic_jobs))%Z
      then py_take max_results basic_jobs
      else location_loop max_results nlocs locs' basic_jobs n'
  end.

Fixpoint detail_phase (i : nat) (basic_jobs : list job) (results : list job)
  : exc_result (list job) :=
  match basic_jobs with
  | [] => Ok results
  | j :: js =>
      detailed_job <- get_detailed_job_info (dget i) j;;
      detail_phase (S i) js (results ++ [detailed_job])%list
  end.

(** [search_linkedin_jobs] on a searcher whose [self.results] is
    [results]; the new [self.results], or the exception that escapes. *)
Definition search_linkedin_jobs (location : location_arg) (max_results : Z)
           (results : list job) : exc_result (list job) :=
  let locs := locations_to_search location in
  let basic_jobs := location_loop max_results (List.length locs) locs [] 0 in
  match basic_jobs with
  | [] => Ok results
  | _ => detail_phase 1 basic_jobs results
  end.

Fixpoint location_loop_basic (max_results : Z) (nlocs : nat) (locs : list string)
         (results : list job) (n : nat) : list job :=
  match locs with
  | [] => results
  | _ :: locs' =>
      let (results, n') :=
        search_single_location_basic lget clock keywords max_applicants fuel
          (max_results / Z.of_nat nlocs) results n in
      if (max_results <=? Z.of_nat (List.length results))%Z
      then py_take max_results results
      else location_loop_basic max_results nlocs locs' results n'
  end.

(** [search_linkedin_jobs_basic]: the new [self.results]. *)
Definition search_linkedin_jobs_basic (location : location_arg) (max_results : Z)
           (results : list job) : list job :=
  let locs := locations_to_search location in
  location_loop_basic max_results (List.length locs) locs results 0.

End Search.

(** *** Concrete pages used by the examples below *)

Definition no_details : job_details := mkDetails None None None None None None.

Definition listing_page (cards : list card) : response :=
  mkResponse 200 "" "text/html" (mkSoup "" cards [] [] [] "" no_details) JInvalid.

Definition job_page (text : string) : response :=
  mkResponse 200 "" "text/html" (mkSoup text [] [] [] [] text no_details) JInvalid.

Definition ds_card : card :=
  mkCard (Some "Data Scientist") (Some "Acme") (Some "Toronto")
         (Some (Some "https://www.linkedin.com/jobs/view/123/")) (Some (Some "2025-01-01")).

Definition one_card_get (n : nat) (_ : request) : outcome :=
  match n with O => Responded (listing_page [ds_card]) | _ => Responded (listing_page []) end.

Definition busy_detail (_ : nat) (_ : nat) (_ : request) : outcome :=
  Responded (job_page "500 applicants").

Definition const_clock (_ : nat) : string := "2025-01-01T00:00:00".

Example search_ex1 :
  option_map (map applicants)
    (match search_linkedin_jobs one_card_get const_clock busy_detail "data scientist" 10 10
             (LocStr "") 1 [] with Ok l => Some l | Err _ => None end)
  = Some [Some 500%Z].
Proof. vm_compute. reflexivity. Qed.

Example search_ex2 :
  map job_id (search_linkedin_jobs_basic one_card_get const_clock "data scientist" 10 10
                (LocStr "Toronto") 5 [])
  = [Some "123"].
Proof. vm_compute. reflexivity. Qed.

(* ------------------------------------------------------------------ *)
(** ** Result sink ([save_results])

    [opens path] says whether [open(path, 'w')] and the writes into it
    succeed; the result is the returned flag and the files opened for
    writing, in order. *)

Record filepaths := mkPaths { csv_path : string; json_path : string }.

Definition save_results (opens : string -> bool) (results : list job) (fp : filepaths)
  : bool * list string :=
  match results with
  | [] => (false, [])
  | _ =>
      let csv_ok := opens (csv_path fp) in
      let json_ok := opens (json_path fp) in
      (csv_ok && json_ok, [csv_path fp; json_path fp])
  end.

(* ------------------------------------------------------------------ *)
(** ** The workflow orchestrator ([WorkflowOrchestrator], run_workflow.py) *)

Module Workflow.

(** [self.state['data']]: the three keys the orchestrator reads and writes. *)
Record wdata := mkData {
  job_search_output : option string;
  created_folders : option (list string);
  job_title : option string }.

Record wstate := mkState {
  completed_steps : list string;
  data : wdata }.

Definition empty_state : wstate := mkState [] (mkData None None None).

(** The configuration keys the steps read, with the code's defaults
    already applied. *)
Record config := mkConfig {
  save_state : bool;
  job_search_enabled : bool;
  folder_creation_enabled : bool;
  ai_tailoring_enabled : bool;
  build_enabled : bool;
  confirm_after_search : bool;
  confirm_after_folder_creation : bool;
  confirm_after_tailoring : bool;
  continue_on_error : bool }.

(** What the external scripts and the user do. *)
Inductive step1_result :=
  | S1Raise (msg : string)                            (* script fails or no output file *)
  | S1Output (path : string) (summary_readable : bool).

Inductive step2_result :=
  | S2Raise (msg : string)                            (* script fails or JSON unreadable *)
  | S2NoTitleDir                                      (* [title_dir] does not exist *)
  | S2Created (title : string) (folders : list string).

Record env := mkEnv {
  run_step1 : step1_result;
  run_step2 : string -> step2_result;               (* on the search output path *)
  tailor_ok : string -> bool;                       (* resume_ai_creator on a folder *)
  build_ok : string -> string -> bool;              (* build.sh on a title and a folder *)
  answer : string -> bool }.                        (* [_confirm] on a prompt *)

(** A step body that started, with the arguments it received. *)
Inductive event :=
  | Body1
  | Body2 (job_search_output : string)
  | Body3 (folders : list string)
  | Body4 (folders : list string).

Definition event_step (e : event) : string :=
  match e with
  | Body1 => "step1_job_search"
  | Body2 _ => "step2_folder_creation"
  | Body3 _ => "step3_ai_tailoring"
  | Body4 _ => "step4_build_pdfs"
  end.

(** [self.state] in memory, the state file on disk, and the bodies run. *)
Record world := mkWorld {
  state : wstate;
  state_file : option wstate;
  trace : list event }.

Inductive result (A : Type) :=
  | Ret (a : A)
  | Raise (msg : string)          (* an Exception *)
  | Exit (code : Z).              (* sys.exit *)
Arguments Ret {A} a.
Arguments Raise {A} msg.
Arguments Exit {A} code.

Definition M (A : Type) := world -> result A * world.

Definition ret {A} (a : A) : M A := fun w => (Ret a, w).
Definition raise {A} (msg : string) : M A := fun w => (Raise msg, w).
Definition exit {A} (code : Z) : M A := fun w => (Exit code, w).

Definition mbind {A B} (m : M A) (k : A -> M B) : M B :=
  fun w => match m w with
           | (Ret a, w') => k a w'
           | (Raise msg, w') => (Raise msg, w')
           | (Exit c, w') => (Exit c, w')
           end.

Notation "x <-- m ;; k" := (mbind m (fun x => k)) (at level 61, m at next level, right associativity).
Notation "m ;;; k" := (mbind m (fun _ => k)) (at level 61, right associativity).

Definition get_state : M wstate := fun w => (Ret (state w), w).
Definition put_state (s : wstate) : M unit :=
  fun w => (Ret tt, mkWorld s (state_file w) (trace w)).
Definition emit (e : event) : M unit :=
  fun w => (Ret tt, mkWorld (state w) (state_file w) (trace w ++ [e])).

(** [except Exception] around a computation. *)
Definition catch_all {A} (m : M A) (h : string -> M A) : M A :=
  fun w => match m w with
           | (Raise msg, w') => h msg w'
           | r => r
           end.

Section Steps.

Variable cfg : config.
Variable ev : env.

Definition load_state (file : option wstate) : wstate :=
  if save_state cfg then match file with Some s => s | None => empty_state end
  else empty_state.

Definition save : M unit :=
  fun w => (Ret tt, if save_state cfg then mkWorld (state w) (Some (state w)) (trace w) else w).

Definition in_steps (name : string) (s : wstate) : bool :=
  existsb (String.eqb name) (completed_steps s).

Definition mark_completed (name : string) (d : wdata) : M unit :=
  s <-- get_state;;
  put_state (mkState (completed_steps s ++ [name]) d).

(** [if self._should_confirm(step): if not self._confirm(prompt): sys.exit(0)]. *)
Definition confirm (should : bool) (prompt : string) : M unit :=
  if should then (if answer ev prompt then ret tt else exit 0) else ret tt.

(** [Path(p)]: [Path(None)] raises [TypeError]. *)
Definition path_of (p : option string) : M string :=
  match p with Some s => ret s | None => raise "TypeError: NoneType" end.

Definition step1_job_search : M (option string) :=
  s <-- get_state;;
  if in_steps "step1_job_search" s then
    p <-- path_of (job_search_output (data s));; ret (Some p)
  else if negb (job_search_enabled cfg) then ret None
  else
    emit Body1;;;
    match run_step1 ev with
    | S1Raise msg => raise msg
    | S1Output output_file readable =>
        s <-- get_state;;
        let d := data s in
        mark_completed "step1_job_search"
          (mkData (Some output_file) (created_folders d) (job_title d));;;
        save;;;
        (if confirm_after_search cfg then
           (if readable then ret tt else raise "json.load failed");;;
           confirm true "Continue to next step (Folder Creation)?"
         else ret tt);;;
        ret (Some output_file)
    end.

Definition step2_folder_creation (job_search_output : string) : M (list string) :=
  s <-- get_state;;
  if in_steps "step2_folder_creation" s then
    ret (match created_folders (data s) with Some l => l | None => [] end)
  else if negb (folder_creation_enabled cfg) then ret []
  else
    emit (Body2 job_search_output);;;
    match run_step2 ev job_search_output with
    | S2Raise msg => raise msg
    | S2NoTitleDir => ret []
    | S2Created title folders =>
        s <-- get_state;;
        let d := data s in
        mark_completed "step2_folder_creation"
          (mkData (Workflow.job_search_output d) (Some folders) (Some title));;;
        save;;;
        confirm (confirm_after_folder_creation cfg) "Continue to next step (AI Tailoring)?";;;
        ret folders
    end.

(** The per-folder loop of steps 3 and 4: a failing command raises unless
    [continue_on_error]. *)
Fixpoint for_folders (ok : string -> bool) (folders : list string) : M unit :=
  match folders with
  | [] => ret tt
  | f :: fs =>
      (if ok f then ret tt
       else if continue_on_error cfg then ret tt else raise "Command failed");;;
      for_folders ok fs
  end.

Definition step3_ai_tailoring (resume_folders : list string) : M unit :=
  s <-- get_state;;
  if in_steps "step3_ai_tailoring" s then ret tt
  else if negb (ai_tailoring_enabled cfg) then ret tt
  else
    emit (Body3 resume_folders);;;
    for_folders (tailor_ok ev) resume_folders;;;
    s <-- get_state;;
    mark_completed "step3_ai_tailoring" (data s);;;
    save;;;
    confirm (confirm_after_tailoring cfg) "Continue to next step (Build PDFs)?".

(** A [None] title in the command list makes [subprocess.run] raise, which
    the per-folder [except] treats as a failed build. *)
Definition step4_build_pdfs (resume_folders : list string) : M unit :=
  s <-- get_state;;
  if in_steps "step4_build_pdfs" s then ret tt
  else if negb (build_enabled cfg) then ret tt
  else
    emit (Body4 resume_folders);;;
    let title := job_title (data s) in
    for_folders (fun f => match title with Some t => build_ok ev t f | None => false end)
      resume_folders;;;
    s <-- get_state;;
    mark_completed "step4_build_pdfs" (data s);;;
    save.

(** [not resume_from or resume_from in names]. *)
Definition resume_at (resume_from : option string) (names : list string) : bool :=
  match resume_from with
  | None => true
  | Some r => String.eqb r "" || existsb (String.eqb r) names
  end.

Definition run (resume_from : option string) : M unit :=
  catch_all
    (job_search_output <--
       (if resume_at resume_from ["step1"; "beginning"] then step1_job_search
        else s <-- get_state;;
             p <-- path_of (Workflow.job_search_output (data s));; ret (Some p));;
     match job_search_output with
     | None => ret tt
     | Some jso =>
         resume_folders <--
           (if resume_at resume_from ["step1"; "step2"; "beginning"]
            then step2_folder_creation jso
            else s <-- get_state;;
                 ret (match created_folders (data s) with Some l => l | None => [] end));;
         match resume_folders with
         | [] => ret tt
         | _ =>
             (if resume_at resume_from ["step1"; "step2"; "step3"; "beginning"]
              then step3_ai_tailoring resume_folders else ret tt);;;
             (if resume_at resume_from ["step1"; "step2"; "step3"; "step4"; "beginning"]
              then step4_build_pdfs resume_folders else ret tt)
         end
     end)
    (fun _ => exit 1).

(** A process of the orchestrator: load the state file, run. *)
Definition start (file : option wstate) : world := mkWorld (load_state file) file [].

End Steps.

End Workflow.

Module WorkflowExamples.
Import Workflow.

Definition default_cfg : config := mkConfig true true true true true true true true false.
Definition yes_env : env :=
  mkEnv (S1Output "out.json" true) (fun _ => S2Created "DS" ["/tmp/x"])
        (fun _ => true) (fun _ _ => true) (fun _ => true).

(** A state file written after steps 1 and 2, with the two folders. *)
Definition s7 (jso : option string) (tit : option string) : wstate :=
  mkState ["step1_job_search"; "step2_folder_creation"]
          (mkData jso (Some ["/tmp/a"; "/tmp/b"]) tit).

Example wf_ex2 :
  let (r, w) := run default_cfg yes_env None
                  (start default_cfg (Some (s7 (Some "o.json") None))) in
  (r, trace w) = (Exit 1, [Body3 ["/tmp/a"; "/tmp/b"]; Body4 ["/tmp/a"; "/tmp/b"]]).
Proof. reflexivity. Qed.

Example wf_ex3 :
  let (r, w) := run default_cfg yes_env None
                  (start default_cfg (Some (s7 (Some "o.json") (Some "DS")))) in
  (r, trace w) = (Ret tt, [Body3 ["/tmp/a"; "/tmp/b"]; Body4 ["/tmp/a"; "/tmp/b"]]).
Proof. reflexivity. Qed.

End WorkflowExamples.

(* ------------------------------------------------------------------ *)
(** ** Search parameters ([get_user_input], [get_canadian_locations],
    [create_search_keywords]) and the search step of [main] *)

(** [str.strip()]: [lstrip] then [rstrip] of the [\s] characters. *)
Fixpoint lstrip (s : string) : string :=
  match s with
  | EmptyString => EmptyString
  | String c t => if Py.is_space c then lstrip t else s
  end.

Fixpoint rstrip (s : string) : string :=
  match s with
  | EmptyString => EmptyString
  | String c t =>
      let t' := rstrip t in
      if Py.is_space c && String.eqb t' "" then EmptyString else String c t'
  end.

Definition strip (s : string) : string := rstrip (lstrip s).

(** [int(s)] on a stripped string: an optional sign, then decimal digits
    with single underscores allowed between two digits; [None] is
    [ValueError], which is also raised for more than 4300 digits
    ([int_max_str_digits]; underscores and the sign do not count).
    [after_digit] says the previous character was a digit. *)
Fixpoint int_digits (acc : Z) (after_digit : bool) (s : string) : option Z :=
  match s with
  | EmptyString => if after_digit then Some acc else None
  | String c t =>
      if Py.is_digit c then int_digits (acc * 10 + Z.of_nat (Py.code c - 48)) true t
      else if Ascii.eqb c "_"%char && after_digit then int_digits acc false t
      else None
  end.

Fixpoint count_digits (s : string) : nat :=
  match s with
  | EmptyString => 0
  | String c t => (if Py.is_digit c then 1 else 0) + count_digits t
  end.

Definition py_int (s : string) : option Z :=
  if Nat.ltb int_max_str_digits (count_digits s) then None else
  match s with
  | EmptyString => None
  | String c t =>
      if Ascii.eqb c "-"%char then option_map Z.opp (int_digits 0 false t)
      else if Ascii.eqb c "+"%char then int_digits 0 false t
      else int_digits 0 false s
  end.

Definition get_canadian_locations : list string :=
  ["Toronto, ON, Canada"; "Vancouver, BC, Canada"; "Calgary, AB, Canada";
   "Ottawa, ON, Canada"; "Montreal, QC, Canada"; "Edmonton, AB, Canada";
   "Winnipeg, MB, Canada"; "Quebec City, QC, Canada"; "Hamilton, ON, Canada";
   "Kitchener, ON, Canada"].

Definition create_search_keywords (job_title : string) (experience : option Z) : string :=
  job_title.

(** The dict [get_user_input] returns. *)
Record search_params := mkParams {
  p_job_title : string;
  p_experience : option Z;
  p_location : location_arg;
  p_time_filter : string;
  p_max_applicants : Z;
  p_max_results : Z;
  p_fetch_details : bool }.

(** The prompts read the answers [ins] in order; running out of answers is
    [EOFError], here [None]. *)
Fixpoint ask_job_title (ins : list string) : option (string * list string) :=
  match ins with
  | [] => None
  | l :: rest =>
      let job_title := strip l in
      if String.eqb job_title "" then ask_job_title rest else Some (job_title, rest)
  end.

Fixpoint ask_experience (ins : list string) : option (option Z * list string) :=
  match ins with
  | [] => None
  | l :: rest =>
      let experience := strip l in
      if String.eqb experience "" then Some (None, rest)
      else
        match py_int experience with
        | Some n =>
            if (0 <=? n)%Z && (n <=? 30)%Z then Some (Some n, rest) else ask_experience rest
        | None => ask_experience rest
        end
  end.

(** The location answer, already stripped. *)
Definition location_of_input (location : string) : location_arg :=
  if String.eqb location "" then LocStr ""
  else if String.eqb (Py.lower location) "canada" then LocList get_canadian_locations
  else LocStr location.

(** [time_filters.get(time_choice, 'r172800')]. *)
Definition time_filters (time_choice : string) : string :=
  if String.eqb time_choice "1" then "r86400"
  else if String.eqb time_choice "2" then "r172800"
  else if String.eqb time_choice "3" then "r604800"
  else if String.eqb time_choice "4" then "r1209600"
  else "r172800".

(** The [max_applicants] and [max_results] answers. *)
Definition int_or_default (s : string) (dflt : Z) : Z :=
  if String.eqb s "" then dflt
  else match py_int s with Some n => n | None => dflt end.

Definition get_user_input (ins : list string) : option (search_params * list string) :=
  match ask_job_title ins with
  | None => None
  | Some (job_title, ins) =>
      match ask_experience ins with
      | None => None
      | Some (experience, ins) =>
          match ins with
          | l_location :: l_time :: l_max_applicants :: l_max_results :: l_details :: rest =>
              let fetch_details := Py.lower (strip l_details) in
              Some (mkParams job_title experience
                      (location_of_input (strip l_location))
                      (time_filters (strip l_time))
                      (int_or_default (strip l_max_applicants) 10)
                      (int_or_default (strip l_max_results) 50)
                      (String.eqb fetch_details "y" || String.eqb fetch_details "yes"),
                    rest)
          | _ => None
          end
      end
  end.

(** The search [main] runs on a fresh searcher once the user confirms:
    the new [searcher.results], or the exception that escapes. *)
Definition main_search (lget : nat -> request -> outcome) (clock : nat -> string)
           (dget : nat -> nat -> request -> outcome) (fuel : nat) (p : search_params)
  : exc_result (list job) :=
  let keywords := create_search_keywords (p_job_title p) (p_experience p) in
  if p_fetch_details p then
    search_linkedin_jobs lget clock dget keywords (p_max_applicants p) fuel
      (p_location p) (p_max_results p) []
  else
    Ok (search_linkedin_jobs_basic lget clock keywords (p_max_applicants p) fuel
          (p_location p) (p_max_results p) []).

(* ------------------------------------------------------------------ *)
(** ** Configuration defaults ([_merge_with_defaults], run_workflow.py) *)

Module Config.









End Config.

(* ================================================================== *)
(** * Properties *)

(** ** Detail fetch *)

Lemma try_except_ok {A} (m : exc_result A) (h : py_exc -> exc_result A) :
  (forall e, exists a, h e = Ok a) -> exists a, try_except m h = Ok a.
Proof.
  intros Hh. destruct m as [a|e]; simpl; [eauto|apply Hh].
Qed.

Lemma get_detailed_job_info_ok get j : exists j', get_detailed_job_info get j = Ok j'.
Proof.
  unfold get_detailed_job_info.
  destruct (negb (truthy (link j))); [eauto|].
  destruct (direct_fetch_run get _ j) as [d [[m|m]|]]; [|eauto|eauto].
  destruct (truthy (job_id j)); [|eauto].
  apply try_except_ok. eauto.
Qed.

(** Every record [direct_fetch] or [api_fetch] returns agrees with its
    input on the identity fields, and on [applicants] when it was known. *)
Definition keeps_identity (j j' : job) : Prop :=
  title j' = title j /\ company j' = company j /\ location j' = location j /\
  link j' = link j /\ job_id j' = job_id j /\ posting_date j' = posting_date j /\
  source j' = source j /\ scraped_at j' = scraped_at j /\
  (applicants j <> None -> applicants j' = applicants j).

Lemma keeps_identity_refl j : keeps_identity j j.
Proof. repeat split; auto. Qed.

Lemma keeps_identity_set_description d j : keeps_identity j (set_description d j).
Proof. repeat split; auto. Qed.

Lemma keeps_identity_set_description_after d j j' :
  keeps_identity j j' -> keeps_identity j (set_description d j').
Proof. intros H. exact H. Qed.

Lemma scan_patterns_err ps t e :
  scan_patterns ps t = Some (Err e) -> exists m, e = OtherException m.
Proof.
  induction ps as [|p ps IH]; simpl; [discriminate|].
  destruct (Re.first_group p t) as [g|]; [|exact IH].
  unfold int_of_digits. destruct (Nat.leb _ _); intros H; inversion H; eauto.
Qed.

Lemma applicant_count_err t e :
  applicant_count_from_text t = Err e -> exists m, e = OtherException m.
Proof.
  unfold applicant_count_from_text.
  destruct (scan_patterns applicant_patterns (Py.lower t)) as [r|] eqn:E.
  - destruct r as [n|e']; simpl; intros H; inversion H; subst. eapply scan_patterns_err, E.
  - destruct (_ && _); discriminate.
Qed.

Lemma direct_fetch_run_identity get l j : keeps_identity j (fst (direct_fetch_run get l j)).
Proof.
  unfold direct_fetch_run.
  destruct (session_get _) as [r|e]; [|apply keeps_identity_refl].
  destruct (raise_for_status r) as [[]|e]; [|apply keeps_identity_refl].
  cbn [applicants update_details set_description].
  destruct (applicants j) eqn:Ha;
    [|destruct (get_linkedin_applicant_count_from_soup _)];
    repeat split; simpl; auto; congruence.
Qed.

(** A request error comes from [session.get] or [raise_for_status], before
    the body's first assignment. *)
Lemma direct_fetch_run_request get l j d m :
  direct_fetch_run get l j = (d, Some (RequestException m)) -> d = j.
Proof.
  unfold direct_fetch_run.
  destruct (session_get _) as [r|e]; [|intros H; inversion H; reflexivity].
  destruct (raise_for_status r) as [[]|e]; [|intros H; inversion H; reflexivity].
  destruct (applicants _); [intros H; inversion H|].
  unfold get_linkedin_applicant_count_from_soup.
  destruct (applicant_count_from_text _) as [a|e] eqn:E; intros H; inversion H; subst.
  destruct (applicant_count_err _ _ E) as [m' Hm]. discriminate.
Qed.

Lemma direct_fetch_request get l j m :
  direct_fetch get l j = Err (RequestException m) ->
  direct_fetch_run get l j = (j, Some (RequestException m)).
Proof.
  unfold direct_fetch. destruct (direct_fetch_run get l j) as [d [e|]] eqn:E; [|discriminate].
  intros H. inversion H; subst. rewrite (direct_fetch_run_request _ _ _ _ _ E). reflexivity.
Qed.

Lemma direct_fetch_identity get l j j' :
  direct_fetch get l j = Ok j' -> keeps_identity j j'.
Proof.
  unfold direct_fetch. pose proof (direct_fetch_run_identity get l j) as Hk.
  destruct (direct_fetch_run get l j) as [d [e|]]; [discriminate|].
  intros H. inversion H; subst. exact Hk.
Qed.

Lemma api_fetch_identity get id j j' :
  api_fetch get id j = Ok j' -> keeps_identity j j'.
Proof.
  unfold api_fetch, bind.
  destruct (session_get _) as [r|e]; [|discriminate].
  destruct (raise_for_status r) as [[]|e]; [|discriminate].
  destruct (Py.contains _ _); [destruct (json r)|]; intros H; inversion H; subst;
    auto using keeps_identity_refl, keeps_identity_set_description.
Qed.

(** C5: [get_detailed_job_info] always returns a record; when the page
    fetch fails with a request error and the API fallback fails too (or
    there is no job id to try it with), the record is the input with the
    placeholder description. *)
Theorem get_detailed_job_info_total (get : nat -> request -> outcome) (j : job)
    (l : string) (msg : string) :
  (exists j', get_detailed_job_info get j = Ok j') /\
  (link j = Some l -> l <> "" ->
   direct_fetch get l j = Err (RequestException msg) ->
   (forall id, job_id j = Some id -> id <> "" -> exists e, api_fetch get id j = Err e) ->
   get_detailed_job_info get j = Ok (set_description (Some placeholder) j)).
Proof.
  split; [apply get_detailed_job_info_ok|].
  intros Hl Hne Hd Ha. unfold get_detailed_job_info.
  rewrite Hl. unfold truthy. apply String.eqb_neq in Hne. rewrite Hne. simpl.
  rewrite (direct_fetch_request _ _ _ _ Hd).
  destruct (job_id j) as [id|] eqn:Hid; simpl; [|reflexivity].
  destruct (String.eqb id "") eqn:He; simpl; [reflexivity|].
  apply String.eqb_neq in He. destruct (Ha id eq_refl He) as [e He'].
  rewrite He'. reflexivity.
Qed.

Definition failing_get (_ : nat) (_ : request) : outcome :=
  Raised (RequestException "Connection refused").

Definition sample_job : job :=
  extract_linkedin_job_data "2025-01-01T00:00:00" ds_card.

Lemma get_detailed_job_info_total_witness :
  get_detailed_job_info failing_get sample_job
  = Ok (set_description (Some placeholder) sample_job).
Proof.
  apply (proj2 (get_detailed_job_info_total failing_get sample_job
                  "https://www.linkedin.com/jobs/view/123/" "Connection refused")).
  - reflexivity.
  - discriminate.
  - reflexivity.
  - intros id _ _. exists (RequestException "Connection refused"). reflexivity.
Defined.

(** C8: the record [get_detailed_job_info] returns has the input's title,
    company, location, link, job id, posting date, source and scrape time,
    and its applicant count when that was known; only the optional fields
    change. *)
Theorem get_detailed_job_info_frame (get : nat -> request -> outcome) (j : job) :
  exists j', get_detailed_job_info get j = Ok j' /\ keeps_identity j j'.
Proof.
  unfold get_detailed_job_info.
  destruct (negb (truthy (link j))).
  { exists j. split; [reflexivity|apply keeps_identity_refl]. }
  pose proof (direct_fetch_run_identity get (match link j with Some l => l | None => "" end) j)
    as Hk.
  destruct (direct_fetch_run get _ j) as [d [[m|m]|]] eqn:Hd; cbn [fst] in Hk.
  - rewrite (direct_fetch_run_request _ _ _ _ _ Hd).
    destruct (truthy (job_id j)).
    + destruct (api_fetch get _ j) as [j'|e'] eqn:Ha; simpl.
      * exists j'. split; [reflexivity|eapply api_fetch_identity; eauto].
      * eexists. split; [reflexivity|apply keeps_identity_set_description].
    + eexists. split; [reflexivity|apply keeps_identity_set_description].
  - eexists. split; [reflexivity|apply keeps_identity_set_description_after, Hk].
  - exists d. split; [reflexivity|exact Hk].
Qed.

(** ** Result sink *)

(** C10: with no results, [save_results] returns [False] and opens no file. *)
Theorem save_results_empty (opens : string -> bool) (fp : filepaths) :
  save_results opens [] fp = (false, []).
Proof. reflexivity. Qed.

(** ** Applicant count *)






















(** ** Relevance filter *)

Lemma fold_count (f : string -> bool) ws acc :
  fold_left (fun acc w => if f w then acc + 1 else acc) ws acc
  = acc + List.length (filter f ws).
Proof.
  revert acc. induction ws as [|w ws IH]; intros acc; simpl; [lia|].
  rewrite IH. destruct (f w); simpl; lia.
Qed.

Lemma filter_none {A} (f : A -> bool) l :
  (forall x, In x l -> f x = false) -> filter f l = [].
Proof.
  induction l as [|x l IH]; simpl; intros H; [reflexivity|].
  rewrite H by auto. apply IH. auto.
Qed.

(** C4: for a query containing "corporate communications" (case
    insensitively) a title containing "talent manager" is rejected, even
    with "communications" in it; for any other query of N > 0 words, a
    title none of whose words contains any query word is rejected; and such
    a title is accepted exactly when at least 60% of the query words are
    substrings of some title word (words taken from the lower-cased texts,
    split on white space, repeated query words counted each time). *)
Theorem is_job_relevant_spec (q t : string) :
  (Py.contains "corporate communications" (Py.lower q) = true ->
   Py.contains "talent manager" (Py.lower t) = true ->
   is_job_relevant t q = false) /\
  (Py.contains "corporate communications" (Py.lower q) = false ->
   Py.split (Py.lower q) <> [] ->
   (forall w, In w (Py.split (Py.lower q)) ->
      word_matches (Py.split (Py.lower t)) w = false) ->
   is_job_relevant t q = false) /\
  (Py.contains "corporate communications" (Py.lower q) = false ->
   (is_job_relevant t q = true <->
    6 * List.length (Py.split (Py.lower q))
    <= 10 * List.length (filter (word_matches (Py.split (Py.lower t))) (Py.split (Py.lower q))))).
Proof.
  unfold is_job_relevant. split; [|split].
  - intros Hq Ht. rewrite Hq. simpl existsb. rewrite Ht. reflexivity.
  - intros Hq Hne Hw. rewrite Hq, fold_count, filter_none by exact Hw. simpl.
    destruct (Py.split (Py.lower q)); [congruence|]. reflexivity.
  - intros Hq. rewrite Hq, fold_count. simpl. apply Nat.leb_le.
Qed.

Lemma is_job_relevant_spec_witness :
  is_job_relevant "Talent Manager, Internal Communications" "Corporate Communications" = false /\
  is_job_relevant "Software Engineer" "Data Scientist" = false /\
  is_job_relevant "Senior Data Scientist" "Data Scientist" = true.
Proof.
  split; [|split].
  - apply (proj1 (is_job_relevant_spec "Corporate Communications"
                    "Talent Manager, Internal Communications")); reflexivity.
  - apply (proj1 (proj2 (is_job_relevant_spec "Data Scientist" "Software Engineer")));
      [reflexivity|discriminate|].
    intros w Hw. simpl in Hw.
    destruct Hw as [<-|[<-|[]]]; reflexivity.
  - apply (proj2 (proj2 (proj2 (is_job_relevant_spec "Data Scientist" "Senior Data Scientist"))
                   eq_refl)).
    vm_compute. lia.
Defined.

(** ** Result caps *)

Section Caps.

Variable lget : nat -> request -> outcome.
Variable clock : nat -> string.
Variable keywords : string.
Variable max_applicants : Z.

(** The per-location invariant: the list holds [jobs_found] jobs, and
    [jobs_found] never passes a non-negative budget. *)
Definition found_inv (budget : Z) (v : loop_vars) : Prop :=
  Z.of_nat (List.length (location_basic_jobs v)) = jobs_found v /\
  (0 <= jobs_found v <= Z.max 0 budget)%Z.

Lemma found_inv_with_counters b r s p v :
  found_inv b v -> found_inv b (with_counters r s p v).
Proof. auto. Qed.

Lemma found_inv_with_req b n v : found_inv b v -> found_inv b (with_req n v).
Proof. auto. Qed.

Lemma process_cards_inv budget now cards : forall v pf,
  Z.of_nat (List.length (location_basic_jobs v)) = jobs_found v ->
  (0 <= jobs_found v < budget)%Z ->
  found_inv budget (fst (process_cards keywords max_applicants budget now cards v pf)).
Proof.
  induction cards as [|c cs IH]; intros v pf Hlen Hb; simpl.
  - split; [exact Hlen|lia].
  - destruct (_ && _); [|apply IH; auto].
    destruct (budget <=? jobs_found v + 1)%Z eqn:E; simpl.
    + split; simpl; [rewrite length_app; simpl; lia|lia].
    + apply Z.leb_gt in E. apply IH; simpl; [rewrite length_app; simpl; lia|lia].
Qed.

Lemma on_request_exception_inv b msg v :
  found_inv b v ->
  match on_request_exception msg v with inl v' | inr v' => found_inv b v' end.
Proof.
  intros H. unfold on_request_exception.
  destruct (Py.contains _ _); [|destruct (_ <=? _)%Z]; apply found_inv_with_counters, H.
Qed.

Arguments process_cards : simpl never.

Lemma page_loop_inv budget url fuel : forall v,
  found_inv budget v ->
  found_inv budget (page_loop lget clock keywords max_applicants fuel budget url v).
Proof.
  induction fuel as [|fuel IH]; intros v Hv; simpl page_loop; [exact Hv|].
  destruct ((jobs_found v <? budget)%Z && _ && _) eqn:Hc; [|exact Hv].
  apply andb_prop in Hc as [Hc _]. apply andb_prop in Hc as [Hc _].
  apply Z.ltb_lt in Hc.
  pose proof (found_inv_with_req budget (S (req_no v)) v Hv) as Hv1.
  set (v1 := with_req (S (req_no v)) v) in *.
  destruct (lget _ _) as [[msg|msg]|r].
  - pose proof (on_request_exception_inv budget msg v1 Hv1) as Ho.
    destruct (on_request_exception msg v1); [apply IH|]; exact Ho.
  - apply IH, found_inv_with_counters, Hv1.
  - destruct (status_code r =? 429)%Z; [apply IH, found_inv_with_counters, Hv1|].
    destruct (raise_for_status r) as [_|[msg|msg]].
    + destruct (first_nonempty (content r)) as [|c cs].
      * apply IH, found_inv_with_counters, Hv1.
      * cbv beta iota.
        destruct (process_cards keywords max_applicants budget (clock (req_no v)) (c :: cs) v1 0)
          as [v' pf] eqn:Ep.
        apply IH, found_inv_with_counters.
        assert (Hv' := process_cards_inv budget (clock (req_no v)) (c :: cs) v1 0).
        rewrite Ep in Hv'. apply Hv'; destruct Hv1; simpl in *; lia.
    + pose proof (on_request_exception_inv budget msg v1 Hv1) as Ho.
      destruct (on_request_exception msg v1); [apply IH|]; exact Ho.
    + pose proof (on_request_exception_inv budget msg v1 Hv1) as Ho.
      destruct (on_request_exception msg v1); [apply IH|]; exact Ho.
Qed.

Lemma endpoint_loop_inv fuel budget urls : forall v,
  found_inv budget v ->
  found_inv budget (endpoint_loop lget clock keywords max_applicants fuel budget urls v).
Proof.
  induction urls as [|u us IH]; intros v Hv; simpl; [exact Hv|].
  destruct (_ <=? _)%Z; [exact Hv|].
  pose proof (page_loop_inv budget u fuel _
                (found_inv_with_counters budget (rate_limit_errors v) 0 0 v Hv)) as H.
  destruct (0 <? _)%Z; [exact H|apply IH, H].
Qed.

Lemma search_single_location_length fuel budget n :
  List.length (fst (search_single_location lget clock keywords max_applicants fuel budget n))
  <= Z.to_nat budget.
Proof.
  unfold search_single_location. cbn [fst].
  destruct (endpoint_loop_inv fuel budget search_urls (mkLV 0 [] 0 0 0 n)) as [H1 H2].
  - split; simpl; lia.
  - lia.
Qed.

(** Basic mode: [self.results] grows by [jobs_found]. *)
Definition basic_inv (results0 : list job) (budget : Z) (v : basic_vars) : Prop :=
  Z.of_nat (List.length (b_results v)) = (Z.of_nat (List.length results0) + b_jobs_found v)%Z /\
  (0 <= b_jobs_found v <= Z.max 0 budget)%Z.

Lemma basic_inv_with_pages r0 b s p v : basic_inv r0 b v -> basic_inv r0 b (with_pages s p v).
Proof. auto. Qed.

Lemma process_cards_basic_inv r0 budget now cards : forall v pf,
  Z.of_nat (List.length (b_results v)) = (Z.of_nat (List.length r0) + b_jobs_found v)%Z ->
  (0 <= b_jobs_found v < budget)%Z ->
  basic_inv r0 budget (fst (process_cards_basic keywords max_applicants budget now cards v pf)).
Proof.
  induction cards as [|c cs IH]; intros v pf Hlen Hb; simpl.
  - split; [exact Hlen|lia].
  - match goal with |- context [is_job_relevant ?a ?b] => destruct (is_job_relevant a b) end;
      [|apply IH; auto].
    destruct (budget <=? b_jobs_found v + 1)%Z eqn:E; simpl.
    + split; simpl; [rewrite length_app; simpl; lia|lia].
    + apply Z.leb_gt in E. apply IH; simpl; [rewrite length_app; simpl; lia|lia].
Qed.

Arguments process_cards_basic : simpl never.

Lemma basic_loop_inv r0 budget fuel : forall v,
  basic_inv r0 budget v ->
  basic_inv r0 budget (basic_loop lget clock keywords max_applicants fuel budget v).
Proof.
  induction fuel as [|fuel IH]; intros v Hv; simpl basic_loop; [exact Hv|].
  destruct ((b_jobs_found v <? budget)%Z && _) eqn:Hc; [|exact Hv].
  apply andb_prop in Hc as [Hc _]. apply Z.ltb_lt in Hc.
  set (v1 := mkBV (b_results v) (b_jobs_found v) (b_start v)
                  (b_pages_without_results v) (S (b_req_no v))).
  assert (Hv1 : basic_inv r0 budget v1) by exact Hv.
  assert (Herr : basic_inv r0 budget
    (if (basic_max_pages_without_results <=? b_pages_without_results v1 + 1)%Z
     then with_pages (b_start v1) (b_pages_without_results v1 + 1) v1
     else basic_loop lget clock keywords max_applicants fuel budget
            (with_pages (b_start v1 + 25) (b_pages_without_results v1 + 1) v1))).
  { destruct (_ <=? _)%Z; [apply basic_inv_with_pages, Hv1|apply IH, basic_inv_with_pages, Hv1]. }
  destruct (lget _ _) as [[msg|msg]|r].
  - exact Herr.
  - apply IH, basic_inv_with_pages, Hv1.
  - destruct (raise_for_status r) as [_|e]; [|exact Herr].
    destruct (cards_job_search_card (content r)) as [|c cs].
    + apply IH, basic_inv_with_pages, Hv1.
    + cbv beta iota.
      destruct (process_cards_basic keywords max_applicants budget (clock (b_req_no v))
                  (c :: cs) v1 0) as [v' pf] eqn:Ep.
      apply IH, basic_inv_with_pages.
      assert (Hv' := process_cards_basic_inv r0 budget (clock (b_req_no v)) (c :: cs) v1 0).
      rewrite Ep in Hv'. apply Hv'; destruct Hv1; simpl in *; lia.
Qed.

Lemma search_single_location_basic_length fuel budget results n :
  List.length (fst (search_single_location_basic lget clock keywords max_applicants
                      fuel budget results n))
  <= List.length results + Z.to_nat budget.
Proof.
  unfold search_single_location_basic. cbn [fst].
  destruct (basic_loop_inv results budget fuel (mkBV results 0 0 0 n)) as [H1 H2].
  - split; simpl; lia.
  - lia.
Qed.

End Caps.

Lemma py_take_length {A} (n : Z) (l : list A) : List.length (py_take n l) <= List.length l.
Proof.
  unfold py_take. destruct (0 <=? n)%Z; rewrite length_firstn; lia.
Qed.

Lemma py_take_length_nonneg {A} (n : Z) (l : list A) :
  (0 <= n)%Z -> List.length (py_take n l) <= Z.to_nat n.
Proof.
  intros H. unfold py_take. apply Z.leb_le in H. rewrite H, length_firstn. lia.
Qed.

Lemma per_location_budget (n : nat) (R : Z) : n * Z.to_nat (R / Z.of_nat n) <= Z.to_nat R.
Proof.
  destruct n as [|n]; [simpl; lia|].
  destruct (Z.ltb_spec R 0) as [HR|HR].
  - assert (R / Z.of_nat (S n) < 0)%Z by (apply Z.div_lt_upper_bound; lia).
    replace (Z.to_nat (R / Z.of_nat (S n))) with 0 by lia. lia.
  - assert (Hd : (0 <= R / Z.of_nat (S n))%Z) by (apply Z.div_pos; lia).
    pose proof (Z.mul_div_le R (Z.of_nat (S n)) ltac:(lia)) as Hm.
    apply Nat2Z.inj_le. rewrite Nat2Z.inj_mul, !Z2Nat.id by lia. exact Hm.
Qed.

Lemma location_loop_length lget clock keywords max_applicants fuel R nlocs locs :
  forall basic n,
  List.length (location_loop lget clock keywords max_applicants fuel R nlocs locs basic n)
  <= List.length basic + List.length locs * Z.to_nat (R / Z.of_nat nlocs).
Proof.
  induction locs as [|l ls IH]; intros basic n; cbn [location_loop List.length]; [lia|].
  pose proof (search_single_location_length lget clock keywords max_applicants fuel
                (R / Z.of_nat nlocs) n) as Hs.
  destruct (search_single_location _ _ _ _ _ _ _) as [lj n'].
  cbn [fst] in Hs.
  destruct (R <=? _)%Z.
  - pose proof (py_take_length R (basic ++ lj)%list). rewrite length_app in *. lia.
  - specialize (IH (basic ++ lj)%list n'). rewrite length_app in IH. lia.
Qed.

Lemma location_loop_basic_length lget clock keywords max_applicants fuel R nlocs locs :
  forall results n,
  List.length (location_loop_basic lget clock keywords max_applicants fuel R nlocs locs results n)
  <= List.length results + List.length locs * Z.to_nat (R / Z.of_nat nlocs).
Proof.
  induction locs as [|l ls IH]; intros results n; cbn [location_loop_basic List.length]; [lia|].
  pose proof (search_single_location_basic_length lget clock keywords max_applicants fuel
                (R / Z.of_nat nlocs) results n) as Hs.
  destruct (search_single_location_basic _ _ _ _ _ _ _ _) as [r' n'].
  cbn [fst] in Hs.
  destruct (R <=? _)%Z.
  - pose proof (py_take_length R r'). lia.
  - specialize (IH r' n'). lia.
Qed.

Lemma detail_phase_ok dget basic : forall i results,
  exists res, detail_phase dget i basic results = Ok res /\
              List.length res = List.length results + List.length basic.
Proof.
  induction basic as [|j js IH]; intros i results; simpl.
  - exists results. split; [reflexivity|lia].
  - destruct (get_detailed_job_info_ok (dget i) j) as [j' Hj]. rewrite Hj. simpl.
    destruct (IH (S i) (results ++ [j'])%list) as [res [Hr Hl]].
    exists res. split; [exact Hr|]. rewrite Hl, length_app. simpl. lia.
Qed.

(** C3 (amended): on a fresh searcher ([self.results] empty), in detailed
    and in basic mode, for any locations and any server answers, the final
    result set has at most [Z.to_nat R] records: at most [R] when [R >= 0],
    and none at all when [R] is negative. *)
Theorem search_results_capped lget clock dget keywords max_applicants fuel loc R :
  (exists res,
     search_linkedin_jobs lget clock dget keywords max_applicants fuel loc R [] = Ok res /\
     List.length res <= Z.to_nat R) /\
  List.length (search_linkedin_jobs_basic lget clock keywords max_applicants fuel loc R [])
  <= Z.to_nat R.
Proof.
  pose proof (per_location_budget (List.length (locations_to_search loc)) R) as Hb.
  split.
  - unfold search_linkedin_jobs.
    pose proof (location_loop_length lget clock keywords max_applicants fuel R
                  (List.length (locations_to_search loc)) (locations_to_search loc) [] 0) as H.
    destruct (location_loop _ _ _ _ _ _ _ _ _ _) as [|j js].
    + exists []. split; [reflexivity|simpl; lia].
    + destruct (detail_phase_ok dget (j :: js) 1 []) as [res [Hr Hl]].
      exists res. split; [exact Hr|]. simpl in H, Hl. lia.
  - unfold search_linkedin_jobs_basic.
    pose proof (location_loop_basic_length lget clock keywords max_applicants fuel R
                  (List.length (locations_to_search loc)) (locations_to_search loc) [] 0) as H.
    simpl in H. lia.
Qed.

(** C3 counterexample: with the cap [R = -1] (the prompt accepts any
    integer) both modes return an empty result set, whose size 0 exceeds R. *)
Lemma search_negative_cap_exceeds :
  search_linkedin_jobs one_card_get const_clock busy_detail "data scientist" 10 10
    (LocStr "") (-1) [] = Ok [] /\
  search_linkedin_jobs_basic one_card_get const_clock "data scientist" 10 10
    (LocStr "") (-1) [] = [] /\
  (Z.of_nat (List.length (@nil job)) > -1)%Z.
Proof.
  split; [vm_compute; reflexivity|split; [vm_compute; reflexivity|simpl; lia]].
Qed.

Lemma budget_share_zero (n : nat) (R : Z) :
  (R < Z.of_nat n)%Z -> n * Z.to_nat (R / Z.of_nat n) = 0.
Proof.
  intros H. destruct n as [|n]; [reflexivity|].
  destruct (Z.ltb_spec R 0) as [HR|HR].
  - assert (R / Z.of_nat (S n) < 0)%Z by (apply Z.div_lt_upper_bound; lia).
    replace (Z.to_nat (R / Z.of_nat (S n))) with 0 by lia. lia.
  - rewrite Z.div_small by lia. simpl. lia.
Qed.

(** C9 (amended): when there are more locations than the result cap [R],
    the per-location budget [R // len(locations)] is 0 for [R >= 0] and
    negative for [R < 0]; either way, on a fresh searcher, both the detailed
    and the basic search return an empty result set, whatever the pages. *)
Theorem more_locations_than_cap lget clock dget keywords max_applicants fuel loc R
  (H : (R < Z.of_nat (List.length (locations_to_search loc)))%Z) :
  ((0 <= R)%Z -> (R / Z.of_nat (List.length (locations_to_search loc)) = 0)%Z) /\
  ((R < 0)%Z -> 0 < List.length (locations_to_search loc) ->
   (R / Z.of_nat (List.length (locations_to_search loc)) < 0)%Z) /\
  search_linkedin_jobs lget clock dget keywords max_applicants fuel loc R [] = Ok [] /\
  search_linkedin_jobs_basic lget clock keywords max_applicants fuel loc R [] = [].
Proof.
  pose proof (budget_share_zero _ _ H) as Hz.
  split; [|split; [|split]].
  - intros HR. apply Z.div_small. lia.
  - intros HR Hn. apply Z.div_lt_upper_bound; lia.
  - unfold search_linkedin_jobs.
    pose proof (location_loop_length lget clock keywords max_applicants fuel R
                  (List.length (locations_to_search loc)) (locations_to_search loc) [] 0) as Hl.
    rewrite Hz in Hl.
    destruct (location_loop _ _ _ _ _ _ _ _ _ _); [reflexivity|simpl in Hl; lia].
  - unfold search_linkedin_jobs_basic.
    pose proof (location_loop_basic_length lget clock keywords max_applicants fuel R
                  (List.length (locations_to_search loc)) (locations_to_search loc) [] 0) as Hl.
    rewrite Hz in Hl.
    destruct (location_loop_basic _ _ _ _ _ _ _ _ _ _); [reflexivity|simpl in Hl; lia].
Qed.

Lemma more_locations_than_cap_witness :
  (1 < Z.of_nat (List.length (locations_to_search (LocList ["Toronto"; "Vancouver"]))))%Z /\
  search_linkedin_jobs one_card_get const_clock busy_detail "data scientist" 10 10
    (LocList ["Toronto"; "Vancouver"]) 1 [] = Ok [] /\
  search_linkedin_jobs_basic one_card_get const_clock "data scientist" 10 10
    (LocList ["Toronto"; "Vancouver"]) 1 [] = [].
Proof.
  assert (H : (1 < Z.of_nat (List.length (locations_to_search (LocList ["Toronto"; "Vancouver"]))))%Z)
    by (simpl; lia).
  split; [exact H|].
  exact (proj2 (proj2 (more_locations_than_cap one_card_get const_clock busy_detail
                         "data scientist" 10 10 (LocList ["Toronto"; "Vancouver"]) 1 H))).
Defined.

(** C9 counterexample: with the two locations Toronto and Vancouver and
    the cap [-1], there are more locations than the cap, but
    [max_results // len(locations)] is [-1 // 2 = -1], not 0. *)
Lemma negative_cap_budget_not_zero :
  (1 < List.length (locations_to_search (LocList ["Toronto"; "Vancouver"])))%nat /\
  (-1 < Z.of_nat (List.length (locations_to_search (LocList ["Toronto"; "Vancouver"]))))%Z /\
  ((-1) / Z.of_nat (List.length (locations_to_search (LocList ["Toronto"; "Vancouver"]))) = -1)%Z.
Proof. split; [|split]; vm_compute; reflexivity. Qed.

(** C1: in detailed mode the applicant cap is not enforced on the final
    results. A listing page with one relevant "Data Scientist" card
    (extracted with [fetch_details=False], so its applicant count is
    unknown and passes the cap of 10), and a job page reading
    "500 applicants": the search returns that job with 500 applicants. *)
Lemma detailed_search_exceeds_applicant_cap :
  match search_linkedin_jobs one_card_get const_clock busy_detail "data scientist" 10 10
          (LocStr "") 1 [] with
  | Ok [j] => applicants j = Some 500%Z /\ (500 > 10)%Z
  | _ => False
  end.
Proof. vm_compute. split; reflexivity. Qed.

(** ** Workflow: skipping completed steps *)

Module WorkflowProps.
Import Workflow.

Section Progress.

Variable cfg : config.
Variable ev : env.

(** From world [w] to world [w']: the bodies started are of steps not
    completed in [w]; [completed_steps] grows by new, distinct names; and
    with [save_state] the state file keeps holding the in-memory state. *)
Definition progress (w w' : world) : Prop :=
  (exists new, trace w' = (trace w ++ new)%list /\
     Forall (fun e => ~ In (event_step e) (completed_steps (state w))) new) /\
  (exists added, completed_steps (state w') = (completed_steps (state w) ++ added)%list /\
     NoDup added /\ Forall (fun x => ~ In x (completed_steps (state w))) added) /\
  (save_state cfg = true -> load_state cfg (state_file w) = state w ->
   load_state cfg (state_file w') = state w').

Definition step_ok {A} (m : M A) : Prop := forall w, progress w (snd (m w)).

Lemma progress_refl w : progress w w.
Proof.
  split; [|split; [|auto]].
  - exists []. rewrite app_nil_r. split; [reflexivity|constructor].
  - exists []. rewrite app_nil_r. split; [reflexivity|split; constructor].
Qed.

Lemma progress_trans w1 w2 w3 : progress w1 w2 -> progress w2 w3 -> progress w1 w3.
Proof.
  intros [[n1 [Ht1 Hn1]] [[a1 [Hc1 [Hd1 Ha1]]] Hs1]]
         [[n2 [Ht2 Hn2]] [[a2 [Hc2 [Hd2 Ha2]]] Hs2]].
  split; [|split].
  - exists (n1 ++ n2)%list. rewrite Ht2, Ht1, app_assoc. split; [reflexivity|].
    apply Forall_app. split; [exact Hn1|].
    eapply Forall_impl; [|exact Hn2]. intros e He Hin. apply He.
    rewrite Hc1. apply in_or_app. auto.
  - exists (a1 ++ a2)%list. rewrite Hc2, Hc1, app_assoc. split; [reflexivity|split].
    + apply NoDup_app; [exact Hd1|exact Hd2|].
      intros x Hx1 Hx2. rewrite Forall_forall in Ha2. apply (Ha2 x Hx2).
      rewrite Hc1. apply in_or_app. auto.
    + apply Forall_app. split; [exact Ha1|].
      eapply Forall_impl; [|exact Ha2]. intros x Hx Hin. apply Hx.
      rewrite Hc1. apply in_or_app. auto.
  - intros Hs H. apply Hs2, Hs1; assumption.
Qed.

Lemma ret_ok {A} (a : A) : step_ok (ret a).
Proof. intros w. apply progress_refl. Qed.

Lemma raise_ok {A} msg : step_ok (@raise A msg).
Proof. intros w. apply progress_refl. Qed.

Lemma exit_ok {A} c : step_ok (@exit A c).
Proof. intros w. apply progress_refl. Qed.

Lemma mbind_ok {A B} (m : M A) (k : A -> M B) :
  step_ok m -> (forall a, step_ok (k a)) -> step_ok (mbind m k).
Proof.
  intros Hm Hk w. unfold mbind. specialize (Hm w).
  destruct (m w) as [[a|msg|c] w']; simpl in *; auto.
  eapply progress_trans; [exact Hm|apply Hk].
Qed.

Lemma catch_all_ok {A} (m : M A) h :
  step_ok m -> (forall msg, step_ok (h msg)) -> step_ok (catch_all m h).
Proof.
  intros Hm Hh w. unfold catch_all. specialize (Hm w).
  destruct (m w) as [[a|msg|c] w']; simpl in *; auto.
  eapply progress_trans; [exact Hm|apply Hh].
Qed.

Lemma for_folders_world ok fs w : exists r, for_folders cfg ok fs w = (r, w).
Proof.
  revert w. induction fs as [|f fs IH]; intros w; simpl; [eexists; reflexivity|].
  unfold mbind. destruct (ok f); [|destruct (continue_on_error cfg)]; simpl;
    [apply IH|apply IH|eexists; reflexivity].
Qed.

Lemma confirm_world b p w : exists r, confirm ev b p w = (r, w).
Proof.
  unfold confirm. destruct b; [destruct (answer ev p)|]; eexists; reflexivity.
Qed.

Lemma in_steps_In name s : in_steps name s = true <-> In name (completed_steps s).
Proof.
  unfold in_steps. rewrite existsb_exists. split.
  - intros [x [Hx Hq]]. apply String.eqb_eq in Hq. subst. exact Hx.
  - intros H. exists name. split; [exact H|apply String.eqb_refl].
Qed.

(** Computations that leave the world as it is. *)
Definition keeps {A} (m : M A) : Prop := forall w, snd (m w) = w.

Lemma keeps_ret {A} (a : A) : keeps (ret a).
Proof. intros w. reflexivity. Qed.

Lemma keeps_raise {A} msg : keeps (@raise A msg).
Proof. intros w. reflexivity. Qed.

Lemma keeps_exit {A} c : keeps (@exit A c).
Proof. intros w. reflexivity. Qed.

Lemma keeps_get_state : keeps get_state.
Proof. intros w. reflexivity. Qed.

Lemma keeps_confirm b p : keeps (confirm ev b p).
Proof. intros w. destruct (confirm_world b p w) as [r ->]. reflexivity. Qed.

Lemma keeps_for_folders ok fs : keeps (for_folders cfg ok fs).
Proof. intros w. destruct (for_folders_world ok fs w) as [r ->]. reflexivity. Qed.

Lemma keeps_path_of p : keeps (path_of p).
Proof. intros w. destruct p; reflexivity. Qed.

Lemma keeps_mbind {A B} (m : M A) (k : A -> M B) :
  keeps m -> (forall a, keeps (k a)) -> keeps (mbind m k).
Proof.
  intros Hm Hk w. unfold mbind. specialize (Hm w).
  destruct (m w) as [[a|msg|c] w']; simpl in *; subst; [apply Hk|reflexivity|reflexivity].
Qed.

Ltac solve_keeps :=
  repeat first
    [ apply keeps_mbind; intros
    | apply keeps_ret | apply keeps_raise | apply keeps_exit | apply keeps_get_state
    | apply keeps_confirm | apply keeps_for_folders | apply keeps_path_of
    | match goal with
      | |- keeps (if ?b then _ else _) => destruct b
      | |- keeps (match ?x with _ => _ end) => destruct x
      end ].

Lemma keeps_step_ok {A} (m : M A) : keeps m -> step_ok m.
Proof. intros H w. rewrite H. apply progress_refl. Qed.

Lemma keeps_after {A} (m : M A) w0 w : keeps m -> progress w0 w -> progress w0 (snd (m w)).
Proof. intros Hk Hp. rewrite Hk. exact Hp. Qed.

Lemma bind_get {A} (k : wstate -> M A) w : mbind get_state k w = k (state w) w.
Proof. reflexivity. Qed.

Lemma bind_emit {A} e (k : unit -> M A) w :
  mbind (emit e) k w = k tt (mkWorld (state w) (state_file w) (trace w ++ [e])).
Proof. reflexivity. Qed.

Lemma bind_keeps {A B} (m : M A) (k : A -> M B) w r :
  m w = (r, w) ->
  mbind m k w = match r with
                | Ret a => k a w
                | Raise msg => (Raise msg, w)
                | Exit c => (Exit c, w)
                end.
Proof. intros H. unfold mbind. rewrite H. reflexivity. Qed.

Definition marked (name : string) (d : wdata) (w : world) : world :=
  let s := mkState (completed_steps (state w) ++ [name]) d in
  mkWorld s (if save_state cfg then Some s else state_file w) (trace w).

Lemma bind_mark_save {A} name d (k : unit -> M A) w :
  mbind (mark_completed name d) (fun _ => mbind (save cfg) k) w = k tt (marked name d w).
Proof. unfold marked. cbv [mbind mark_completed get_state put_state save]. simpl.
  destruct (save_state cfg); reflexivity. Qed.

Lemma mark_save w name d : (mark_completed name d;;; save cfg) w = (Ret tt, marked name d w).
Proof. unfold marked. cbv [mbind mark_completed get_state put_state save]. simpl.
  destruct (save_state cfg); reflexivity. Qed.

Lemma emit_progress e w :
  in_steps (event_step e) (state w) = false ->
  progress w (mkWorld (state w) (state_file w) (trace w ++ [e])).
Proof.
  intros Hin.
  assert (Hn : ~ In (event_step e) (completed_steps (state w)))
    by (rewrite <- in_steps_In, Hin; discriminate).
  split; [|split].
  - exists [e]. split; [reflexivity|]. constructor; [exact Hn|constructor].
  - exists []. rewrite app_nil_r. split; [reflexivity|split; constructor].
  - auto.
Qed.

(** Starting a body then marking its step completed and saving. *)
Lemma body_mark_save e d w :
  in_steps (event_step e) (state w) = false ->
  progress w (marked (event_step e) d (mkWorld (state w) (state_file w) (trace w ++ [e]))).
Proof.
  intros Hin.
  assert (Hn : ~ In (event_step e) (completed_steps (state w)))
    by (rewrite <- in_steps_In, Hin; discriminate).
  unfold marked; simpl.
  split; [|split].
  - exists [e]. split; [reflexivity|]. constructor; [exact Hn|constructor].
  - exists [event_step e]. split; [reflexivity|].
    split; [constructor; [intros []|constructor]|].
    constructor; [exact Hn|constructor].
  - intros Hs _. unfold load_state. rewrite Hs. reflexivity.
Qed.

Lemma step1_ok : step_ok (step1_job_search cfg ev).
Proof.
  intros w. unfold step1_job_search. rewrite bind_get.
  destruct (in_steps "step1_job_search" (state w)) eqn:Hin.
  - apply keeps_step_ok. solve_keeps.
  - destruct (negb (job_search_enabled cfg)); [apply progress_refl|].
    rewrite bind_emit. destruct (run_step1 ev) as [msg|out rd].
    + apply (emit_progress Body1), Hin.
    + rewrite bind_get, bind_mark_save.
      apply keeps_after; [solve_keeps|apply (body_mark_save Body1), Hin].
Qed.

Lemma step2_ok jso : step_ok (step2_folder_creation cfg ev jso).
Proof.
  intros w. unfold step2_folder_creation. rewrite bind_get.
  destruct (in_steps "step2_folder_creation" (state w)) eqn:Hin.
  - apply progress_refl.
  - destruct (negb (folder_creation_enabled cfg)); [apply progress_refl|].
    rewrite bind_emit. destruct (run_step2 ev jso) as [msg| |title folders].
    + apply (emit_progress (Body2 jso)), Hin.
    + apply (emit_progress (Body2 jso)), Hin.
    + rewrite bind_get, bind_mark_save.
      apply keeps_after; [solve_keeps|apply (body_mark_save (Body2 jso)), Hin].
Qed.

Lemma step3_ok fs : step_ok (step3_ai_tailoring cfg ev fs).
Proof.
  intros w. unfold step3_ai_tailoring. rewrite bind_get.
  destruct (in_steps "step3_ai_tailoring" (state w)) eqn:Hin.
  - apply progress_refl.
  - destruct (negb (ai_tailoring_enabled cfg)); [apply progress_refl|].
    rewrite bind_emit.
    match goal with |- progress _ (snd (mbind _ _ ?w1)) =>
      destruct (for_folders_world (tailor_ok ev) fs w1) as [r Hr] end.
    rewrite (bind_keeps _ _ _ _ Hr). destruct r as [[]|msg|c].
    + rewrite bind_get, bind_mark_save.
      apply keeps_after; [solve_keeps|apply (body_mark_save (Body3 fs)), Hin].
    + apply (emit_progress (Body3 fs)), Hin.
    + apply (emit_progress (Body3 fs)), Hin.
Qed.

Lemma step4_ok fs : step_ok (step4_build_pdfs cfg ev fs).
Proof.
  intros w. unfold step4_build_pdfs. rewrite bind_get.
  destruct (in_steps "step4_build_pdfs" (state w)) eqn:Hin.
  - apply progress_refl.
  - destruct (negb (build_enabled cfg)); [apply progress_refl|].
    rewrite bind_emit.
    match goal with |- progress _ (snd (mbind (for_folders _ ?ok _) _ ?w1)) =>
      destruct (for_folders_world ok fs w1) as [r Hr] end.
    rewrite (bind_keeps _ _ _ _ Hr). destruct r as [[]|msg|c].
    + rewrite bind_get, mark_save.
      apply (body_mark_save (Body4 fs)), Hin.
    + apply (emit_progress (Body4 fs)), Hin.
    + apply (emit_progress (Body4 fs)), Hin.
Qed.

Lemma run_ok resume_from : step_ok (run cfg ev resume_from).
Proof.
  unfold run. apply catch_all_ok; [|intros; apply exit_ok].
  apply mbind_ok.
  - destruct (resume_at resume_from _); [apply step1_ok|apply keeps_step_ok; solve_keeps].
  - intros [jso|]; [|apply ret_ok].
    apply mbind_ok.
    + destruct (resume_at resume_from _); [apply step2_ok|apply keeps_step_ok; solve_keeps].
    + intros [|f fs]; [apply ret_ok|].
      apply mbind_ok.
      * destruct (resume_at resume_from _); [apply step3_ok|apply ret_ok].
      * intros _. destruct (resume_at resume_from _); [apply step4_ok|apply ret_ok].
Qed.

Lemma step1_skip w :
  in_steps "step1_job_search" (state w) = true ->
  step1_job_search cfg ev w =
  (match job_search_output (data (state w)) with
   | Some p => Ret (Some p)
   | None => Raise "TypeError: NoneType"
   end, w).
Proof.
  intros Hin. unfold step1_job_search. rewrite bind_get, Hin.
  destruct (job_search_output (data (state w))); reflexivity.
Qed.

Lemma step2_skip jso w :
  in_steps "step2_folder_creation" (state w) = true ->
  step2_folder_creation cfg ev jso w =
  (Ret (match created_folders (data (state w)) with Some l => l | None => [] end), w).
Proof. intros Hin. unfold step2_folder_creation. rewrite bind_get, Hin. reflexivity. Qed.

Lemma step3_skip fs w :
  in_steps "step3_ai_tailoring" (state w) = true -> step3_ai_tailoring cfg ev fs w = (Ret tt, w).
Proof. intros Hin. unfold step3_ai_tailoring. rewrite bind_get, Hin. reflexivity. Qed.

Lemma step4_skip fs w :
  in_steps "step4_build_pdfs" (state w) = true -> step4_build_pdfs cfg ev fs w = (Ret tt, w).
Proof. intros Hin. unfold step4_build_pdfs. rewrite bind_get, Hin. reflexivity. Qed.

Lemma catch_exit_world {A} (m : M A) w :
  snd (catch_all m (fun _ => exit 1) w) = snd (m w).
Proof. unfold catch_all. destruct (m w) as [[a|msg|c] w']; reflexivity. Qed.

Lemma trace_keeps {A} (m : M A) w : keeps m -> trace (snd (m w)) = trace w.
Proof. intros H. rewrite H. reflexivity. Qed.

(** Step 3 starts at most its own body, on the folders it is given. *)
Lemma step3_trace fs w :
  exists extra, trace (snd (step3_ai_tailoring cfg ev fs w)) = (trace w ++ extra)%list /\
                Forall (eq (Body3 fs)) extra.
Proof.
  unfold step3_ai_tailoring. rewrite bind_get.
  destruct (in_steps "step3_ai_tailoring" (state w));
    [exists []; rewrite app_nil_r; split; [reflexivity|constructor]|].
  destruct (negb (ai_tailoring_enabled cfg));
    [exists []; rewrite app_nil_r; split; [reflexivity|constructor]|].
  rewrite bind_emit. exists [Body3 fs]. split; [|constructor; [reflexivity|constructor]].
  match goal with |- trace (snd (mbind _ _ ?w1)) = _ =>
    destruct (for_folders_world (tailor_ok ev) fs w1) as [r Hr] end.
  rewrite (bind_keeps _ _ _ _ Hr). destruct r as [[]|msg|c]; [|reflexivity|reflexivity].
  rewrite bind_get, bind_mark_save, trace_keeps by solve_keeps. reflexivity.
Qed.

Lemma step4_trace fs w :
  exists extra, trace (snd (step4_build_pdfs cfg ev fs w)) = (trace w ++ extra)%list /\
                Forall (eq (Body4 fs)) extra.
Proof.
  unfold step4_build_pdfs. rewrite bind_get.
  destruct (in_steps "step4_build_pdfs" (state w));
    [exists []; rewrite app_nil_r; split; [reflexivity|constructor]|].
  destruct (negb (build_enabled cfg));
    [exists []; rewrite app_nil_r; split; [reflexivity|constructor]|].
  rewrite bind_emit. exists [Body4 fs]. split; [|constructor; [reflexivity|constructor]].
  match goal with |- trace (snd (mbind (for_folders _ ?ok _) _ ?w1)) = _ =>
    destruct (for_folders_world ok fs w1) as [r Hr] end.
  rewrite (bind_keeps _ _ _ _ Hr). destruct r as [[]|msg|c]; [|reflexivity|reflexivity].
  rewrite bind_get, mark_save. reflexivity.
Qed.

Lemma for_folders_all_ok ok fs w :
  (continue_on_error cfg = true \/ forall f, In f fs -> ok f = true) ->
  for_folders cfg ok fs w = (Ret tt, w).
Proof.
  intros H. induction fs as [|f fs IH]; [reflexivity|]. simpl. unfold mbind.
  assert (Hf : (if ok f then ret tt else if continue_on_error cfg then ret tt
                else raise "Command failed") w = (@Ret unit tt, w)).
  { destruct H as [H|H]; [destruct (ok f); rewrite ?H; reflexivity|].
    rewrite (H f (or_introl eq_refl)). reflexivity. }
  rewrite Hf. apply IH. destruct H as [H|H]; [left; exact H|right].
  intros g Hg. apply H. right. exact Hg.
Qed.

(** Step 3 runs through when enabled, its commands succeed (or errors are
    tolerated) and the user does not decline to go on. *)
Lemma step3_runs fs w :
  in_steps "step3_ai_tailoring" (state w) = false ->
  ai_tailoring_enabled cfg = true ->
  (continue_on_error cfg = true \/ forall f, In f fs -> tailor_ok ev f = true) ->
  (confirm_after_tailoring cfg = true -> answer ev "Continue to next step (Build PDFs)?" = true) ->
  exists w3, step3_ai_tailoring cfg ev fs w = (Ret tt, w3) /\
             trace w3 = (trace w ++ [Body3 fs])%list /\
             completed_steps (state w3) = (completed_steps (state w) ++ ["step3_ai_tailoring"])%list.
Proof.
  intros Hin Hai Hok Hc. unfold step3_ai_tailoring. rewrite bind_get, Hin, Hai. cbn [negb]. rewrite bind_emit, (bind_keeps _ _ _ _ (for_folders_all_ok _ _ _ Hok)).
  rewrite bind_get, bind_mark_save.
  eexists. split.
  - unfold confirm. destruct (confirm_after_tailoring cfg); [rewrite Hc by reflexivity|]; reflexivity.
  - split; reflexivity.
Qed.

Lemma step4_starts fs w :
  in_steps "step4_build_pdfs" (state w) = false -> build_enabled cfg = true ->
  trace (snd (step4_build_pdfs cfg ev fs w)) = (trace w ++ [Body4 fs])%list.
Proof.
  intros Hin Hb. unfold step4_build_pdfs. rewrite bind_get, Hin, Hb. cbn [negb]. rewrite bind_emit.
  match goal with |- trace (snd (mbind (for_folders _ ?ok _) _ ?w1)) = _ =>
    destruct (for_folders_world ok fs w1) as [r Hr] end.
  rewrite (bind_keeps _ _ _ _ Hr). destruct r as [[]|msg|c]; [|reflexivity|reflexivity].
  rewrite bind_get, mark_save. reflexivity.
Qed.

End Progress.

Import WorkflowExamples.

(** C6: a step whose name is in [completed_steps] runs no body and leaves
    the world as it is: step 1 hands back the recorded
    [data.job_search_output] (and [Path(None)] raises when there is none),
    step 2 the recorded [data.created_folders], steps 3 and 4 return.
    Hence a run starts no body of a step completed in the state it starts
    from, and appends to [completed_steps] only names not yet there, each
    at most once. With [save_state] on, a second run over the state file
    left by a first run starts no body of a step the first run (or an
    earlier one) completed. *)
Theorem completed_steps_skipped :
  (forall cfg ev w, In "step1_job_search" (completed_steps (state w)) ->
     step1_job_search cfg ev w =
     (match job_search_output (data (state w)) with
      | Some p => Ret (Some p)
      | None => Raise "TypeError: NoneType"
      end, w)) /\
  (forall cfg ev jso w, In "step2_folder_creation" (completed_steps (state w)) ->
     step2_folder_creation cfg ev jso w =
     (Ret (match created_folders (data (state w)) with Some l => l | None => [] end), w)) /\
  (forall cfg ev fs w, In "step3_ai_tailoring" (completed_steps (state w)) ->
     step3_ai_tailoring cfg ev fs w = (Ret tt, w)) /\
  (forall cfg ev fs w, In "step4_build_pdfs" (completed_steps (state w)) ->
     step4_build_pdfs cfg ev fs w = (Ret tt, w)) /\
  (forall cfg ev resume_from w,
     let w' := snd (run cfg ev resume_from w) in
     (exists new, trace w' = (trace w ++ new)%list /\
        Forall (fun e => ~ In (event_step e) (completed_steps (state w))) new) /\
     (exists added, completed_steps (state w') = (completed_steps (state w) ++ added)%list /\
        NoDup added /\ Forall (fun x => ~ In x (completed_steps (state w))) added)) /\
  (forall cfg ev1 ev2 rf1 rf2 file, save_state cfg = true ->
     let w1 := snd (run cfg ev1 rf1 (start cfg file)) in
     let w2 := snd (run cfg ev2 rf2 (start cfg (state_file w1))) in
     Forall (fun e => ~ In (event_step e) (completed_steps (state w1))) (trace w2)).
Proof.
  split; [|split; [|split; [|split; [|split]]]].
  - intros cfg ev w H. apply step1_skip, in_steps_In, H.
  - intros cfg ev jso w H. apply step2_skip, in_steps_In, H.
  - intros cfg ev fs w H. apply step3_skip, in_steps_In, H.
  - intros cfg ev fs w H. apply step4_skip, in_steps_In, H.
  - intros cfg ev rf w.
    destruct (run_ok cfg ev rf w) as [H1 [H2 _]]. exact (conj H1 H2).
  - intros cfg ev1 ev2 rf1 rf2 file Hs w1 w2.
    destruct (run_ok cfg ev1 rf1 (start cfg file)) as [_ [_ H3]].
    assert (Hf : load_state cfg (state_file w1) = state w1) by (apply H3; [exact Hs|reflexivity]).
    destruct (run_ok cfg ev2 rf2 (start cfg (state_file w1))) as [[new [Ht Hn]] _].
    unfold w2. rewrite Ht. unfold start in Hn |- *. cbn [state trace app] in Hn |- *.
    rewrite Hf in Hn. exact Hn.
Qed.

Lemma completed_steps_skipped_witness :
  In "step1_job_search" (completed_steps (state (start default_cfg (Some (s7 (Some "o.json") None))))) /\
  step1_job_search default_cfg yes_env (start default_cfg (Some (s7 (Some "o.json") None))) =
    (Ret (Some "o.json"), start default_cfg (Some (s7 (Some "o.json") None))) /\
  In "step2_folder_creation"
     (completed_steps (state (start default_cfg (Some (s7 (Some "o.json") None))))) /\
  step2_folder_creation default_cfg yes_env "o.json"
    (start default_cfg (Some (s7 (Some "o.json") None))) =
    (Ret ["/tmp/a"; "/tmp/b"], start default_cfg (Some (s7 (Some "o.json") None))) /\
  save_state default_cfg = true /\
  Forall (fun e => ~ In (event_step e)
            (completed_steps (state (snd (run default_cfg yes_env None (start default_cfg None))))))
    (trace (snd (run default_cfg yes_env None
       (start default_cfg
          (state_file (snd (run default_cfg yes_env None (start default_cfg None)))))))).
Proof.
  assert (H1 : In "step1_job_search"
                 (completed_steps (state (start default_cfg (Some (s7 (Some "o.json") None))))))
    by (simpl; auto).
  assert (H2 : In "step2_folder_creation"
                 (completed_steps (state (start default_cfg (Some (s7 (Some "o.json") None))))))
    by (simpl; auto).
  assert (Hs : save_state default_cfg = true) by reflexivity.
  split; [exact H1|split; [exact (proj1 completed_steps_skipped default_cfg yes_env _ H1)|]].
  split; [exact H2|split; [exact (proj1 (proj2 completed_steps_skipped)
                                     default_cfg yes_env "o.json" _ H2)|]].
  split; [exact Hs|].
  exact (proj2 (proj2 (proj2 (proj2 (proj2 completed_steps_skipped))))
           default_cfg yes_env yes_env None None None Hs).
Defined.

(** Resuming after folder creation: start from a state file holding
    [completed_steps = ["step1_job_search"; "step2_folder_creation"]],
    [data.created_folders = ["/tmp/a"; "/tmp/b"]] and a recorded
    [data.job_search_output] (any [job_title]), with [save_state] on. Then
    [run()] starts no step-1 or step-2 body, and every body it starts is
    the step-3 or the step-4 body, given exactly those two folders. Both
    run when steps 3 and 4 are enabled, tailoring succeeds on each folder
    (or errors are tolerated) and the user does not decline to go on after
    tailoring. *)
Theorem resume_after_folder_creation cfg ev jso tit (Hs : save_state cfg = true) :
  let w := snd (run cfg ev None (start cfg (Some (s7 (Some jso) tit)))) in
  Forall (fun e => e = Body3 ["/tmp/a"; "/tmp/b"] \/ e = Body4 ["/tmp/a"; "/tmp/b"]) (trace w) /\
  (ai_tailoring_enabled cfg = true -> build_enabled cfg = true ->
   (continue_on_error cfg = true \/ forall f, In f ["/tmp/a"; "/tmp/b"] -> tailor_ok ev f = true) ->
   (confirm_after_tailoring cfg = true -> answer ev "Continue to next step (Build PDFs)?" = true) ->
   trace w = [Body3 ["/tmp/a"; "/tmp/b"]; Body4 ["/tmp/a"; "/tmp/b"]]).
Proof.
  intros w. subst w.
  set (w0 := start cfg (Some (s7 (Some jso) tit))).
  assert (Hw0 : state w0 = s7 (Some jso) tit)
    by (unfold w0, start, load_state; rewrite Hs; reflexivity).
  assert (Ht0 : trace w0 = []) by reflexivity.
  unfold run. rewrite catch_exit_world. cbn [resume_at orb].
  rewrite (bind_keeps _ _ _ _ (step1_skip cfg ev w0 ltac:(rewrite Hw0; reflexivity))).
  rewrite Hw0. cbn [job_search_output created_folders data s7].
  rewrite (bind_keeps _ _ _ _ (step2_skip cfg ev jso w0 ltac:(rewrite Hw0; reflexivity))).
  rewrite Hw0. cbn [job_search_output created_folders data s7].
  set (fs := ["/tmp/a"; "/tmp/b"]).
  split.
  - unfold mbind.
    destruct (step3_trace cfg ev fs w0) as [e3 [T3 F3]].
    destruct (step3_ai_tailoring cfg ev fs w0) as [r3 w3]. cbn [snd] in T3.
    assert (H3 : Forall (fun e => e = Body3 fs \/ e = Body4 fs) (trace w3)).
    { rewrite T3, Ht0. simpl. eapply Forall_impl; [|exact F3]. intros e <-. left. reflexivity. }
    destruct r3 as [[]|msg|c]; [|exact H3|exact H3].
    destruct (step4_trace cfg ev fs w3) as [e4 [T4 F4]]. rewrite T4.
    apply Forall_app. split; [exact H3|].
    eapply Forall_impl; [|exact F4]. intros e <-. right. reflexivity.
  - intros Hai Hbd Hok Hc. unfold mbind.
    assert (Hin3 : in_steps "step3_ai_tailoring" (state w0) = false) by (rewrite Hw0; reflexivity).
    destruct (step3_runs cfg ev fs w0 Hin3 Hai Hok Hc) as [w3 [E3 [T3 C3]]].
    rewrite E3, step4_starts; [rewrite T3, Ht0; reflexivity| |exact Hbd].
    unfold in_steps. rewrite C3, Hw0. reflexivity.
Qed.

Lemma resume_after_folder_creation_witness :
  save_state default_cfg = true /\
  trace (snd (run default_cfg yes_env None
                (start default_cfg (Some (s7 (Some "o.json") (Some "DS")))))) =
  [Body3 ["/tmp/a"; "/tmp/b"]; Body4 ["/tmp/a"; "/tmp/b"]].
Proof.
  assert (Hs : save_state default_cfg = true) by reflexivity.
  split; [exact Hs|].
  apply (proj2 (resume_after_folder_creation default_cfg yes_env "o.json" (Some "DS") Hs));
    [reflexivity|reflexivity|right; intros f _; reflexivity|intros _; reflexivity].
Defined.



End WorkflowProps.

(* ================================================================== *)
(** * Further properties of the scraper *)

(** ** The applicant cap in the search loops *)

Lemma process_cards_cons kw ma budget now c cs v pf :
  process_cards kw ma budget now (c :: cs) v pf =
  (let job_data := extract_linkedin_job_data now c in
   if negb (String.eqb (title job_data) "N/A") && is_job_relevant (title job_data) kw then
     if applicants_ok ma (applicants job_data) then
       let v' := mkLV (jobs_found v + 1) (location_basic_jobs v ++ [job_data])
                      (rate_limit_errors v) (current_start v)
                      (current_pages_without_results v) (req_no v) in
       if (budget <=? jobs_found v')%Z then (v', pf + 1)%Z
       else process_cards kw ma budget now cs v' (pf + 1)
     else process_cards kw ma budget now cs v pf
   else process_cards kw ma budget now cs v pf).
Proof. reflexivity. Qed.

Lemma process_cards_basic_cons kw ma budget now c cs v pf :
  process_cards_basic kw ma budget now (c :: cs) v pf =
  (let job_data := extract_linkedin_job_data now c in
   if is_job_relevant (title job_data) kw then
     let job_data := basic_placeholders job_data in
     if applicants_ok ma (applicants job_data) then
       let v' := mkBV (b_results v ++ [job_data]) (b_jobs_found v + 1)
                      (b_start v) (b_pages_without_results v) (b_req_no v) in
       if (budget <=? b_jobs_found v')%Z then (v', pf + 1)%Z
       else process_cards_basic kw ma budget now cs v' (pf + 1)
     else process_cards_basic kw ma budget now cs v pf
   else process_cards_basic kw ma budget now cs v pf).
Proof. reflexivity. Qed.

Lemma process_cards_cap_free kw ma1 ma2 budget now cards : forall v pf,
  process_cards kw ma1 budget now cards v pf = process_cards kw ma2 budget now cards v pf.
Proof.
  induction cards as [|c cs IH]; intros v pf; [reflexivity|].
  rewrite process_cards_cons, process_cards_cons. cbv zeta.
  change (applicants_ok ma1 (applicants (extract_linkedin_job_data now c))) with true.
  change (applicants_ok ma2 (applicants (extract_linkedin_job_data now c))) with true.
  repeat match goal with |- context [if ?b then _ else _] => destruct b end; auto.
Qed.

Lemma page_loop_cap_free lget clock kw ma1 ma2 budget url fuel : forall v,
  page_loop lget clock kw ma1 fuel budget url v = page_loop lget clock kw ma2 fuel budget url v.
Proof.
  induction fuel as [|fuel IH]; intros v; [reflexivity|]. cbn [page_loop].
  destruct (_ && _ && _); [|reflexivity].
  destruct (lget _ _) as [[msg|msg]|r].
  - destruct (on_request_exception msg _); [apply IH|reflexivity].
  - apply IH.
  - destruct (status_code r =? 429)%Z; [apply IH|].
    destruct (raise_for_status r) as [_|[msg|msg]].
    + destruct (first_nonempty (content r)) as [|c cs]; [apply IH|].
      rewrite (process_cards_cap_free kw ma1 ma2).
      destruct (process_cards _ _ _ _ _ _ _). apply IH.
    + destruct (on_request_exception msg _); [apply IH|reflexivity].
    + destruct (on_request_exception msg _); [apply IH|reflexivity].
Qed.

Lemma endpoint_loop_cap_free lget clock kw ma1 ma2 fuel budget urls : forall v,
  endpoint_loop lget clock kw ma1 fuel budget urls v
  = endpoint_loop lget clock kw ma2 fuel budget urls v.
Proof.
  induction urls as [|u us IH]; intros v; [reflexivity|]. cbn [endpoint_loop].
  rewrite (page_loop_cap_free lget clock kw ma1 ma2).
  destruct (_ <=? _)%Z; [reflexivity|]. destruct (_ <? _)%Z; [reflexivity|apply IH].
Qed.

Lemma location_loop_cap_free lget clock kw ma1 ma2 fuel R nlocs locs : forall basic n,
  location_loop lget clock kw ma1 fuel R nlocs locs basic n
  = location_loop lget clock kw ma2 fuel R nlocs locs basic n.
Proof.
  induction locs as [|l ls IH]; intros basic n; [reflexivity|]. cbn [location_loop].
  unfold search_single_location. rewrite (endpoint_loop_cap_free lget clock kw ma1 ma2).
  destruct (_ <=? _)%Z; [reflexivity|apply IH].
Qed.

Lemma process_cards_basic_cap_free kw ma1 ma2 budget now cards : forall v pf,
  process_cards_basic kw ma1 budget now cards v pf
  = process_cards_basic kw ma2 budget now cards v pf.
Proof.
  induction cards as [|c cs IH]; intros v pf; [reflexivity|].
  rewrite process_cards_basic_cons, process_cards_basic_cons. cbv zeta.
  change (applicants_ok ma1 (applicants (basic_placeholders (extract_linkedin_job_data now c))))
    with true.
  change (applicants_ok ma2 (applicants (basic_placeholders (extract_linkedin_job_data now c))))
    with true.
  repeat match goal with |- context [if ?b then _ else _] => destruct b end; auto.
Qed.

Lemma basic_loop_cap_free lget clock kw ma1 ma2 budget fuel : forall v,
  basic_loop lget clock kw ma1 fuel budget v = basic_loop lget clock kw ma2 fuel budget v.
Proof.
  induction fuel as [|fuel IH]; intros v; [reflexivity|]. cbn [basic_loop].
  destruct (_ && _); [|reflexivity].
  destruct (lget _ _) as [[msg|msg]|r].
  - destruct (_ <=? _)%Z; [reflexivity|apply IH].
  - apply IH.
  - destruct (raise_for_status r) as [_|e].
    + destruct (cards_job_search_card (content r)) as [|c cs]; [apply IH|].
      rewrite (process_cards_basic_cap_free kw ma1 ma2).
      destruct (process_cards_basic _ _ _ _ _ _ _). apply IH.
    + destruct (_ <=? _)%Z; [reflexivity|apply IH].
Qed.

Lemma location_loop_basic_cap_free lget clock kw ma1 ma2 fuel R nlocs locs : forall results n,
  location_loop_basic lget clock kw ma1 fuel R nlocs locs results n
  = location_loop_basic lget clock kw ma2 fuel R nlocs locs results n.
Proof.
  induction locs as [|l ls IH]; intros results n; [reflexivity|]. cbn [location_loop_basic].
  unfold search_single_location_basic. rewrite (basic_loop_cap_free lget clock kw ma1 ma2).
  destruct (_ <=? _)%Z; [reflexivity|apply IH].
Qed.

(** The [max_applicants] argument has no effect on either search: the
    cards are read with [fetch_details=False], so every applicant count
    the cap is checked against is unknown ([None]) and passes. Two
    searches that differ only in [max_applicants] return the same
    results. *)
Theorem search_ignores_max_applicants lget clock dget keywords ma1 ma2 fuel loc R results :
  search_linkedin_jobs lget clock dget keywords ma1 fuel loc R results
  = search_linkedin_jobs lget clock dget keywords ma2 fuel loc R results /\
  search_linkedin_jobs_basic lget clock keywords ma1 fuel loc R results
  = search_linkedin_jobs_basic lget clock keywords ma2 fuel loc R results.
Proof.
  split.
  - unfold search_linkedin_jobs. rewrite (location_loop_cap_free lget clock keywords ma1 ma2).
    reflexivity.
  - unfold search_linkedin_jobs_basic. apply location_loop_basic_cap_free.
Qed.

(** ** What the result records look like *)

Lemma py_take_Forall {A} (P : A -> Prop) n l : Forall P l -> Forall P (py_take n l).
Proof.
  intros H. unfold py_take.
  destruct (0 <=? n)%Z; [rewrite <- (firstn_skipn (Z.to_nat n) l) in H
                          |rewrite <- (firstn_skipn (List.length l - Z.to_nat (- n)) l) in H];
    apply Forall_app in H; apply H.
Qed.

Lemma get_detailed_job_info_keeps get j j' :
  get_detailed_job_info get j = Ok j' -> keeps_identity j j'.
Proof.
  unfold get_detailed_job_info.
  destruct (negb (truthy (link j))).
  { intros H. inversion H. apply keeps_identity_refl. }
  pose proof (direct_fetch_run_identity get (match link j with Some l => l | None => "" end) j)
    as Hk.
  destruct (direct_fetch_run get _ j) as [d [[m|m]|]] eqn:Hd; cbn [fst] in Hk.
  - rewrite (direct_fetch_run_request _ _ _ _ _ Hd).
    destruct (truthy (job_id j)).
    + destruct (api_fetch get _ j) as [j1|e'] eqn:Ha; simpl; intros H; inversion H; subst.
      * eapply api_fetch_identity; eauto.
      * apply keeps_identity_set_description.
    + intros H. inversion H. apply keeps_identity_set_description.
  - intros H. inversion H. apply keeps_identity_set_description_after, Hk.
  - intros H. inversion H; subst. exact Hk.
Qed.

(** A record the detailed search keeps: a title other than ["N/A"] that
    passes [is_job_relevant] for the keywords, and the LinkedIn source. *)
Definition listed (keywords : string) (j : job) : Prop :=
  title j <> "N/A" /\ is_job_relevant (title j) keywords = true /\ source j = "LinkedIn".

Lemma process_cards_listed kw ma budget now cards : forall v pf,
  Forall (listed kw) (location_basic_jobs v) ->
  Forall (listed kw) (location_basic_jobs (fst (process_cards kw ma budget now cards v pf))).
Proof.
  induction cards as [|c cs IH]; intros v pf Hv; [exact Hv|].
  rewrite process_cards_cons. cbv zeta.
  change (applicants_ok ma (applicants (extract_linkedin_job_data now c))) with true.
  destruct (negb _ && _) eqn:Hc; [|apply IH, Hv].
  apply andb_prop in Hc as [Hn Hr]. apply negb_true_iff, String.eqb_neq in Hn.
  assert (Hv' : Forall (listed kw)
                  (location_basic_jobs v ++ [extract_linkedin_job_data now c])%list).
  { apply Forall_app. split; [exact Hv|]. constructor; [|constructor].
    split; [exact Hn|split; [exact Hr|reflexivity]]. }
  destruct (_ <=? _)%Z; [exact Hv'|apply IH, Hv'].
Qed.

Lemma on_request_exception_jobs msg v :
  match on_request_exception msg v with
  | inl v' | inr v' => location_basic_jobs v' = location_basic_jobs v
  end.
Proof.
  unfold on_request_exception. destruct (Py.contains _ _); [|destruct (_ <=? _)%Z]; reflexivity.
Qed.

Lemma page_loop_listed lget clock kw ma budget url fuel : forall v,
  Forall (listed kw) (location_basic_jobs v) ->
  Forall (listed kw) (location_basic_jobs (page_loop lget clock kw ma fuel budget url v)).
Proof.
  induction fuel as [|fuel IH]; intros v Hv; [exact Hv|]. cbn [page_loop].
  destruct (_ && _ && _); [|exact Hv].
  set (v1 := with_req (S (req_no v)) v).
  assert (Hv1 : Forall (listed kw) (location_basic_jobs v1)) by exact Hv.
  clearbody v1.
  destruct (lget _ _) as [[msg|msg]|r].
  - pose proof (on_request_exception_jobs msg v1) as Ho.
    destruct (on_request_exception msg v1); [apply IH|]; rewrite Ho; exact Hv1.
  - apply IH, Hv1.
  - destruct (status_code r =? 429)%Z; [apply IH, Hv1|].
    destruct (raise_for_status r) as [_|[msg|msg]].
    + destruct (first_nonempty (content r)) as [|c cs]; [apply IH, Hv1|].
      pose proof (process_cards_listed kw ma budget (clock (req_no v)) (c :: cs) v1 0 Hv1) as Hp.
      destruct (process_cards _ _ _ _ _ _ _) as [v' pjf]. apply IH, Hp.
    + pose proof (on_request_exception_jobs msg v1) as Ho.
      destruct (on_request_exception msg v1); [apply IH|]; rewrite Ho; exact Hv1.
    + pose proof (on_request_exception_jobs msg v1) as Ho.
      destruct (on_request_exception msg v1); [apply IH|]; rewrite Ho; exact Hv1.
Qed.

Lemma endpoint_loop_listed lget clock kw ma fuel budget urls : forall v,
  Forall (listed kw) (location_basic_jobs v) ->
  Forall (listed kw) (location_basic_jobs (endpoint_loop lget clock kw ma fuel budget urls v)).
Proof.
  induction urls as [|u us IH]; intros v Hv; [exact Hv|]. cbn [endpoint_loop].
  destruct (_ <=? _)%Z; [exact Hv|].
  pose proof (page_loop_listed lget clock kw ma budget u fuel
                (with_counters (rate_limit_errors v) 0 0 v) Hv) as Hp.
  destruct (_ <? _)%Z; [exact Hp|apply IH, Hp].
Qed.

Lemma location_loop_listed lget clock kw ma fuel R nlocs locs : forall basic n,
  Forall (listed kw) basic ->
  Forall (listed kw) (location_loop lget clock kw ma fuel R nlocs locs basic n).
Proof.
  induction locs as [|l ls IH]; intros basic n Hb; [exact Hb|]. cbn [location_loop].
  unfold search_single_location.
  pose proof (endpoint_loop_listed lget clock kw ma fuel (R / Z.of_nat nlocs) search_urls
                (mkLV 0 [] 0 0 0 n) (Forall_nil _)) as He.
  assert (Hb' : Forall (listed kw)
                  (basic ++ location_basic_jobs
                     (endpoint_loop lget clock kw ma fuel (R / Z.of_nat nlocs) search_urls
                        (mkLV 0 [] 0 0 0 n)))%list) by (apply Forall_app; split; assumption).
  destruct (_ <=? _)%Z; [apply py_take_Forall, Hb'|apply IH, Hb'].
Qed.

Lemma detail_phase_listed kw dget basic : forall i results res,
  Forall (listed kw) results -> Forall (listed kw) basic ->
  detail_phase dget i basic results = Ok res -> Forall (listed kw) res.
Proof.
  induction basic as [|j js IH]; intros i results res Hr Hb H; simpl in H.
  - inversion H; subst. exact Hr.
  - inversion Hb as [|? ? Hj Hjs]; subst.
    destruct (get_detailed_job_info (dget i) j) as [j'|e] eqn:Hg; simpl in H; [|discriminate].
    apply (IH (S i) (results ++ [j'])%list res); [|exact Hjs|exact H].
    apply Forall_app. split; [exact Hr|]. constructor; [|constructor].
    destruct (get_detailed_job_info_keeps _ _ _ Hg) as [Ht [_ [_ [_ [_ [_ [Hs _]]]]]]].
    destruct Hj as [H1 [H2 H3]]. unfold listed. rewrite Ht, Hs. auto.
Qed.

(** Every record of the detailed search on a fresh searcher has a title
    other than ["N/A"] that passes [is_job_relevant] for the keywords, and
    source ["LinkedIn"]: the listing filter holds for every record, and the
    detail fetch changes neither field. *)
Theorem detailed_results_relevant lget clock dget keywords max_applicants fuel loc R :
  exists res,
    search_linkedin_jobs lget clock dget keywords max_applicants fuel loc R [] = Ok res /\
    Forall (listed keywords) res.
Proof.
  unfold search_linkedin_jobs.
  pose proof (location_loop_listed lget clock keywords max_applicants fuel R
                (List.length (locations_to_search loc)) (locations_to_search loc) [] 0
                (Forall_nil _)) as Hl.
  destruct (location_loop _ _ _ _ _ _ _ _ _ _) as [|j js] eqn:E.
  - exists []. split; [reflexivity|constructor].
  - destruct (detail_phase_ok dget (j :: js) 1 []) as [res [Hres _]].
    exists res. split; [exact Hres|].
    exact (detail_phase_listed keywords dget (j :: js) 1 [] res (Forall_nil _) Hl Hres).
Qed.

(** A record of the basic search: a title that passes [is_job_relevant],
    the LinkedIn source, no applicant count, and the basic-mode
    placeholders in the description and detail fields. *)
Definition basic_listed (keywords : string) (j : job) : Prop :=
  is_job_relevant (title j) keywords = true /\ source j = "LinkedIn" /\
  applicants j = None /\ basic_placeholders j = j.

Lemma process_cards_basic_listed kw ma budget now cards : forall v pf,
  Forall (basic_listed kw) (b_results v) ->
  Forall (basic_listed kw) (b_results (fst (process_cards_basic kw ma budget now cards v pf))).
Proof.
  induction cards as [|c cs IH]; intros v pf Hv; [exact Hv|].
  rewrite process_cards_basic_cons. cbv zeta.
  change (applicants_ok ma (applicants (basic_placeholders (extract_linkedin_job_data now c))))
    with true.
  destruct (is_job_relevant _ _) eqn:Hr; [|apply IH, Hv].
  assert (Hv' : Forall (basic_listed kw)
                  (b_results v ++ [basic_placeholders (extract_linkedin_job_data now c)])%list).
  { apply Forall_app. split; [exact Hv|]. constructor; [|constructor].
    split; [exact Hr|split; [reflexivity|split; reflexivity]]. }
  destruct (_ <=? _)%Z; [exact Hv'|apply IH, Hv'].
Qed.

Lemma basic_loop_listed lget clock kw ma budget fuel : forall v,
  Forall (basic_listed kw) (b_results v) ->
  Forall (basic_listed kw) (b_results (basic_loop lget clock kw ma fuel budget v)).
Proof.
  induction fuel as [|fuel IH]; intros v Hv; [exact Hv|]. cbn [basic_loop].
  destruct (_ && _); [|exact Hv].
  destruct (lget _ _) as [[msg|msg]|r].
  - destruct (_ <=? _)%Z; [exact Hv|apply IH, Hv].
  - apply IH, Hv.
  - destruct (raise_for_status r) as [_|e].
    + destruct (cards_job_search_card (content r)) as [|c cs]; [apply IH, Hv|].
      match goal with |- context [process_cards_basic ?k ?m ?b ?nw ?cs ?v1 0] =>
        pose proof (process_cards_basic_listed k m b nw cs v1 0 Hv) as Hp;
        destruct (process_cards_basic k m b nw cs v1 0) end.
      apply IH, Hp.
    + destruct (_ <=? _)%Z; [exact Hv|apply IH, Hv].
Qed.

Lemma location_loop_basic_listed lget clock kw ma fuel R nlocs locs : forall results n,
  Forall (basic_listed kw) results ->
  Forall (basic_listed kw) (location_loop_basic lget clock kw ma fuel R nlocs locs results n).
Proof.
  induction locs as [|l ls IH]; intros results n Hr; [exact Hr|]. cbn [location_loop_basic].
  unfold search_single_location_basic.
  pose proof (basic_loop_listed lget clock kw ma (R / Z.of_nat nlocs) fuel
                (mkBV results 0 0 0 n) Hr) as Hb.
  destruct (_ <=? _)%Z; [apply py_take_Forall, Hb|apply IH, Hb].
Qed.

(** Every record of the basic search on a fresh searcher has a title that
    passes [is_job_relevant] for the keywords (the ["N/A"] check of the
    detailed mode is absent here), source ["LinkedIn"], no applicant count,
    and the basic-mode placeholders: the description "Use detailed mode to
    get full job descriptions" and "Not fetched in basic mode" in the six
    detail fields. *)
Theorem basic_results_placeholders lget clock keywords max_applicants fuel loc R :
  Forall (basic_listed keywords)
    (search_linkedin_jobs_basic lget clock keywords max_applicants fuel loc R []).
Proof.
  unfold search_linkedin_jobs_basic. apply location_loop_basic_listed. constructor.
Qed.

(** ** Searching all of Canada *)

Lemma location_of_input_canada s :
  Py.lower s = "canada" -> location_of_input s = LocList get_canadian_locations.
Proof.
  intros H. unfold location_of_input. rewrite H.
  destruct (String.eqb s "") eqn:E; [|reflexivity].
  apply String.eqb_eq in E. subst. discriminate.
Qed.

(** When the location answer is "canada" in any letter case and with any
    surrounding whitespace, [main] searches the ten cities of
    [get_canadian_locations], each with the budget [max_results // 10]: in
    detailed and in basic mode the result has at most
    [10 * (max_results // 10)] records, so none when [max_results < 10]. *)
Theorem canada_search_bound lget clock dget fuel (location_answer : string) (p : search_params) :
  Py.lower (strip location_answer) = "canada" ->
  p_location p = location_of_input (strip location_answer) ->
  exists res, main_search lget clock dget fuel p = Ok res /\
              List.length res <= 10 * Z.to_nat (p_max_results p / 10).
Proof.
  intros Hc Hl. rewrite (location_of_input_canada _ Hc) in Hl.
  unfold main_search, create_search_keywords. destruct (p_fetch_details p).
  - unfold search_linkedin_jobs. rewrite Hl. cbn [locations_to_search].
    pose proof (location_loop_length lget clock (p_job_title p) (p_max_applicants p) fuel
                  (p_max_results p) (List.length get_canadian_locations) get_canadian_locations
                  [] 0) as H.
    change (List.length get_canadian_locations) with 10 in *.
    change (Z.of_nat 10) with 10%Z in H. cbn [List.length] in H.
    destruct (location_loop _ _ _ _ _ _ _ _ _ _) as [|j js] eqn:E.
    + exists []. split; [reflexivity|cbn; lia].
    + destruct (detail_phase_ok dget (j :: js) 1 []) as [res [Hres Hlen]].
      exists res. split; [exact Hres|]. rewrite Hlen. cbn [List.length] in *. lia.
  - eexists. split; [reflexivity|].
    unfold search_linkedin_jobs_basic. rewrite Hl. cbn [locations_to_search].
    pose proof (location_loop_basic_length lget clock (p_job_title p) (p_max_applicants p) fuel
                  (p_max_results p) (List.length get_canadian_locations) get_canadian_locations
                  [] 0) as H.
    change (List.length get_canadian_locations) with 10 in *.
    change (Z.of_nat 10) with 10%Z in H. cbn [List.length] in H. lia.
Qed.

Lemma canada_search_bound_witness :
  Py.lower (strip " Canada ") = "canada" /\
  exists res,
    main_search one_card_get const_clock busy_detail 1
      (mkParams "Data Scientist" None (location_of_input (strip " Canada ")) "r172800" 10 15 true)
    = Ok res /\ List.length res <= 10 * Z.to_nat (15 / 10).
Proof.
  split; [reflexivity|].
  apply (canada_search_bound one_card_get const_clock busy_detail 1 " Canada "
           (mkParams "Data Scientist" None (location_of_input (strip " Canada ")) "r172800" 10 15 true));
    reflexivity.
Defined.

(** ** Job URLs *)

Lemma contains_q_app s t :
  Py.contains "?" (s ++ t) = Py.contains "?" s || Py.contains "?" t.
Proof.
  induction s as [|c s IH]; [reflexivity|].
  change (String c s ++ t) with (String c (s ++ t)).
  cbn [Py.contains Py.starts_with]. rewrite IH, orb_assoc. reflexivity.
Qed.

Lemma before_qmark_no_q s : Py.contains "?" (before_qmark s) = false.
Proof.
  induction s as [|c s IH]; [reflexivity|]. cbn [before_qmark].
  destruct (Ascii.eqb c "?"%char) eqn:E; [reflexivity|].
  cbn [Py.contains Py.starts_with]. rewrite IH, Ascii.eqb_sym, E. reflexivity.
Qed.

Lemma before_qmark_id s : Py.contains "?" s = false -> before_qmark s = s.
Proof.
  induction s as [|c s IH]; [reflexivity|]. cbn [before_qmark Py.contains Py.starts_with].
  intros H. apply orb_false_iff in H as [H1 H2]. rewrite andb_true_r, Ascii.eqb_sym in H1.
  rewrite H1, IH by exact H2. reflexivity.
Qed.

(** [get_detailed_job_info]'s URL cleaning drops the query string and
    makes the link absolute: the cleaned URL contains no ['?'], starts with
    ["http"], and cleaning it again leaves it unchanged. *)
Theorem clean_job_url_normal (l : string) :
  Py.contains "?" (clean_job_url l) = false /\
  Py.starts_with "http" (clean_job_url l) = true /\
  clean_job_url (clean_job_url l) = clean_job_url l.
Proof.
  unfold clean_job_url.
  destruct (Py.starts_with "http" (before_qmark l)) eqn:E.
  - split; [apply before_qmark_no_q|split; [exact E|]].
    rewrite (before_qmark_id _ (before_qmark_no_q l)), E. reflexivity.
  - assert (Hq : Py.contains "?" ("https://www.linkedin.com" ++ before_qmark l) = false)
      by (rewrite contains_q_app, before_qmark_no_q; reflexivity).
    split; [exact Hq|split; [reflexivity|]].
    rewrite (before_qmark_id _ Hq). reflexivity.
Qed.

(** ** The search parameters *)

Lemma lstrip_length s : String.length (lstrip s) <= String.length s.
Proof. induction s as [|c s IH]; simpl; [lia|]. destruct (Py.is_space c); simpl; lia. Qed.

Lemma lstrip_head s : lstrip s = s -> match s with
                                     | String c _ => Py.is_space c = false
                                     | EmptyString => True
                                     end.
Proof.
  destruct s as [|c t]; [auto|]. simpl. destruct (Py.is_space c); [|auto].
  intros H. pose proof (lstrip_length t) as Hl. rewrite H in Hl. simpl in Hl. lia.
Qed.

Lemma lstrip_lstrip s : lstrip (lstrip s) = lstrip s.
Proof.
  induction s as [|c s IH]; [reflexivity|]. simpl.
  destruct (Py.is_space c) eqn:E; [exact IH|]. simpl. rewrite E. reflexivity.
Qed.

Lemma rstrip_rstrip s : rstrip (rstrip s) = rstrip s.
Proof.
  induction s as [|c s IH]; [reflexivity|]. cbn [rstrip].
  destruct (Py.is_space c && String.eqb (rstrip s) "") eqn:E; [reflexivity|].
  cbn [rstrip]. rewrite IH, E. reflexivity.
Qed.

Lemma lstrip_rstrip s : lstrip s = s -> lstrip (rstrip s) = rstrip s.
Proof.
  intros H. apply lstrip_head in H. destruct s as [|c t]; [reflexivity|].
  cbn [rstrip]. rewrite H. simpl. rewrite H. reflexivity.
Qed.

Lemma strip_strip s : strip (strip s) = strip s.
Proof.
  unfold strip. rewrite (lstrip_rstrip _ (lstrip_lstrip s)). apply rstrip_rstrip.
Qed.

Lemma ask_job_title_ok ins : forall t rest,
  ask_job_title ins = Some (t, rest) -> t <> "" /\ strip t = t.
Proof.
  induction ins as [|l ins IH]; intros t rest H; [discriminate|]. simpl in H.
  destruct (String.eqb (strip l) "") eqn:E; [exact (IH _ _ H)|].
  inversion H; subst. split; [apply String.eqb_neq, E|apply strip_strip].
Qed.

Lemma ask_experience_ok ins : forall e rest,
  ask_experience ins = Some (e, rest) ->
  e = None \/ exists n, e = Some n /\ (0 <= n <= 30)%Z.
Proof.
  induction ins as [|l ins IH]; intros e rest H; [discriminate|]. simpl in H.
  destruct (String.eqb (strip l) "").
  - inversion H. auto.
  - destruct (py_int (strip l)) as [n|]; [|exact (IH _ _ H)].
    destruct ((0 <=? n)%Z && (n <=? 30)%Z) eqn:E; [|exact (IH _ _ H)].
    inversion H; subst. right. exists n. split; [reflexivity|].
    apply andb_prop in E as [E1 E2]. apply Z.leb_le in E1, E2. lia.
Qed.

(** What [get_user_input] guarantees of the parameters it returns. *)
Definition valid_params (p : search_params) : Prop :=
  p_job_title p <> "" /\ strip (p_job_title p) = p_job_title p /\
  (p_experience p = None \/ exists n, p_experience p = Some n /\ (0 <= n <= 30)%Z) /\
  In (p_time_filter p) ["r86400"; "r172800"; "r604800"; "r1209600"].

(** Whatever the answers, the parameters [get_user_input] returns have a
    non-empty job title with no surrounding whitespace, an experience that
    is absent or an integer from 0 to 30 (other answers are asked again),
    and one of the four LinkedIn time filters (any other answer gives the
    48-hour default ['r172800']). *)
Theorem get_user_input_valid ins p rest :
  get_user_input ins = Some (p, rest) -> valid_params p.
Proof.
  unfold get_user_input.
  destruct (ask_job_title ins) as [[t ins1]|] eqn:Ht; [|discriminate].
  destruct (ask_experience ins1) as [[e ins2]|] eqn:He; [|discriminate].
  destruct ins2 as [|l1 [|l2 [|l3 [|l4 [|l5 rest']]]]]; try discriminate.
  intros H. inversion H; subst; clear H.
  destruct (ask_job_title_ok _ _ _ Ht) as [H1 H2].
  split; [exact H1|split; [exact H2|split; [exact (ask_experience_ok _ _ _ He)|]]].
  cbn [p_time_filter]. unfold time_filters.
  repeat match goal with |- context [if ?b then _ else _] => destruct b end; simpl; tauto.
Qed.

Definition sample_answers : list string :=
  [""; " Data Scientist "; "forty"; "40"; "5"; " canada "; "7"; ""; "x"; "Y"].

Lemma get_user_input_valid_witness :
  exists p rest, get_user_input sample_answers = Some (p, rest) /\ valid_params p.
Proof.
  eexists. eexists. split; [reflexivity|].
  apply (get_user_input_valid sample_answers _ []). reflexivity.
Defined.

(* ================================================================== *)
(** * Properties of the configuration merge *)

Module ConfigProps.
Import Config.

















End ConfigProps.

(* ================================================================== *)
(** * Further properties of the workflow *)

Module WorkflowFacts.
Import Workflow WorkflowProps.

Ltac keeps_tac :=
  repeat first
    [ apply keeps_mbind; intros
    | apply keeps_ret | apply keeps_raise | apply keeps_exit | apply keeps_get_state
    | apply keeps_confirm | apply keeps_for_folders | apply keeps_path_of
    | match goal with
      | |- keeps (if ?b then _ else _) => destruct b
      | |- keeps (match ?x with _ => _ end) => destruct x
      end ].

Section Facts.

Variable cfg : config.
Variable ev : env.

(** ** Which bodies a computation starts *)

Definition adds {A} (P : event -> Prop) (m : M A) : Prop :=
  forall w, exists new, trace (snd (m w)) = (trace w ++ new)%list /\ Forall P new.

Lemma adds_keeps {A} P (m : M A) : keeps m -> adds P m.
Proof.
  intros H w. exists []. rewrite H, app_nil_r. split; [reflexivity|constructor].
Qed.

Lemma adds_mbind {A B} P (m : M A) (k : A -> M B) :
  adds P m -> (forall a, adds P (k a)) -> adds P (mbind m k).
Proof.
  intros Hm Hk w. unfold mbind. destruct (Hm w) as [n1 [H1 P1]].
  destruct (m w) as [[a|msg|c] w1]; cbn [snd] in *; [|exists n1; auto|exists n1; auto].
  destruct (Hk a w1) as [n2 [H2 P2]]. exists (n1 ++ n2)%list.
  rewrite H2, H1, app_assoc. split; [reflexivity|apply Forall_app; auto].
Qed.

Lemma adds_catch_exit {A} P (m : M A) : adds P m -> adds P (catch_all m (fun _ => exit 1)).
Proof. intros H w. rewrite catch_exit_world. apply H. Qed.

Lemma adds_emit P e : P e -> adds P (emit e).
Proof. intros He w. exists [e]. split; [reflexivity|constructor; [exact He|constructor]]. Qed.

Lemma adds_mark_save {A} P name d (k : unit -> M A) :
  adds P (k tt) -> adds P (mbind (mark_completed name d) (fun _ => mbind (save cfg) k)).
Proof.
  intros Hk w. rewrite bind_mark_save. destruct (Hk (marked cfg name d w)) as [n [H Hn]].
  exists n. split; [rewrite H; reflexivity|exact Hn].
Qed.

Lemma adds_for_folders {A} P ok fs (k : unit -> M A) :
  (forall a, adds P (k a)) -> adds P (mbind (for_folders cfg ok fs) k).
Proof. intros Hk. apply adds_mbind; [apply adds_keeps, keeps_for_folders|exact Hk]. Qed.

Ltac adds_tac :=
  repeat first
    [ apply adds_mark_save
    | apply adds_for_folders; intros
    | apply adds_mbind; [apply adds_emit; try (simpl; tauto); try (eexists; simpl; tauto)|intros]
    | apply adds_keeps; solve [keeps_tac]
    | apply adds_mbind; [apply adds_keeps; solve [keeps_tac]|intros]
    | match goal with
      | |- adds _ (if ?b then _ else _) => destruct b
      | |- adds _ (match ?x with _ => _ end) => destruct x
      end ].

Lemma adds_step1 P : P Body1 -> adds P (step1_job_search cfg ev).
Proof.
  intros HP. unfold step1_job_search.
  apply adds_mbind; [apply adds_keeps, keeps_get_state|intros s].
  destruct (in_steps _ s); [apply adds_keeps; keeps_tac|].
  destruct (negb _); [apply adds_keeps, keeps_ret|].
  apply adds_mbind; [apply adds_emit, HP|intros _].
  destruct (run_step1 ev) as [msg|out rd]; [apply adds_keeps, keeps_raise|].
  apply adds_mbind; [apply adds_keeps, keeps_get_state|intros s'].
  apply adds_mark_save. apply adds_keeps. keeps_tac.
Qed.

Lemma adds_step2 P jso : P (Body2 jso) -> adds P (step2_folder_creation cfg ev jso).
Proof.
  intros HP. unfold step2_folder_creation.
  apply adds_mbind; [apply adds_keeps, keeps_get_state|intros s].
  destruct (in_steps _ s); [apply adds_keeps, keeps_ret|].
  destruct (negb _); [apply adds_keeps, keeps_ret|].
  apply adds_mbind; [apply adds_emit, HP|intros _].
  destruct (run_step2 ev jso) as [msg| |title folders];
    [apply adds_keeps, keeps_raise|apply adds_keeps, keeps_ret|].
  apply adds_mbind; [apply adds_keeps, keeps_get_state|intros s'].
  apply adds_mark_save. apply adds_keeps. keeps_tac.
Qed.

Lemma adds_step3 P fs : P (Body3 fs) -> adds P (step3_ai_tailoring cfg ev fs).
Proof.
  intros HP w. destruct (step3_trace cfg ev fs w) as [n [H Hn]]. exists n. split; [exact H|].
  eapply Forall_impl; [|exact Hn]. intros e <-. exact HP.
Qed.

Lemma adds_step4 P fs : P (Body4 fs) -> adds P (step4_build_pdfs cfg ev fs).
Proof.
  intros HP w. destruct (step4_trace cfg ev fs w) as [n [H Hn]]. exists n. split; [exact H|].
  eapply Forall_impl; [|exact Hn]. intros e <-. exact HP.
Qed.


Lemma adds_run rf P :
  (resume_at rf ["step1"; "beginning"] = true -> P Body1) ->
  (resume_at rf ["step1"; "step2"; "beginning"] = true -> forall j, P (Body2 j)) ->
  (resume_at rf ["step1"; "step2"; "step3"; "beginning"] = true -> forall fs, P (Body3 fs)) ->
  (forall fs, P (Body4 fs)) ->
  adds P (run cfg ev rf).
Proof.
  intros H1 H2 H3 H4. unfold run. apply adds_catch_exit. apply adds_mbind.
  - destruct (resume_at rf ["step1"; "beginning"]); [apply adds_step1, H1, eq_refl|].
    apply adds_keeps. keeps_tac.
  - intros [jso|]; [|apply adds_keeps, keeps_ret]. apply adds_mbind.
    + destruct (resume_at rf ["step1"; "step2"; "beginning"]);
        [apply adds_step2, H2, eq_refl|].
      apply adds_keeps. keeps_tac.
    + intros [|f fs]; [apply adds_keeps, keeps_ret|]. apply adds_mbind.
      * destruct (resume_at rf ["step1"; "step2"; "step3"; "beginning"]);
          [apply adds_step3, H3, eq_refl|apply adds_keeps, keeps_ret].
      * intros _. destruct (resume_at rf ["step1"; "step2"; "step3"; "step4"; "beginning"]); [apply adds_step4, H4|apply adds_keeps, keeps_ret].
Qed.

(** ** Exit statuses *)

Definition prompts : list string :=
  ["Continue to next step (Folder Creation)?"; "Continue to next step (AI Tailoring)?";
   "Continue to next step (Build PDFs)?"].

(** A computation whose only [sys.exit] is [sys.exit(0)] after a declined prompt. *)
Definition exits_declined {A} (m : M A) : Prop :=
  forall w, match fst (m w) with
            | Exit c => c = 0%Z /\ exists p, In p prompts /\ answer ev p = false
            | _ => True
            end.

Lemma exits_ret {A} (a : A) : exits_declined (ret a).
Proof. intros w. exact I. Qed.

Lemma exits_raise {A} msg : exits_declined (@raise A msg).
Proof. intros w. exact I. Qed.

Lemma exits_get_state : exits_declined get_state.
Proof. intros w. exact I. Qed.

Lemma exits_put_state s : exits_declined (put_state s).
Proof. intros w. exact I. Qed.

Lemma exits_emit e : exits_declined (emit e).
Proof. intros w. exact I. Qed.

Lemma exits_save : exits_declined (save cfg).
Proof. intros w. exact I. Qed.

Lemma exits_path_of p : exits_declined (path_of p).
Proof. intros w. destruct p; exact I. Qed.

Lemma exits_for_folders ok fs : exits_declined (for_folders cfg ok fs).
Proof.
  intros w. revert w. induction fs as [|f fs IH]; intros w; [exact I|]. simpl. unfold mbind.
  destruct (ok f); [apply IH|destruct (continue_on_error cfg); [apply IH|exact I]].
Qed.

Lemma exits_confirm b p : In p prompts -> exits_declined (confirm ev b p).
Proof.
  intros Hp w. unfold confirm. destruct b; [|exact I].
  destruct (answer ev p) eqn:E; [exact I|]. split; [reflexivity|exists p; auto].
Qed.

Lemma exits_mbind {A B} (m : M A) (k : A -> M B) :
  exits_declined m -> (forall a, exits_declined (k a)) -> exits_declined (mbind m k).
Proof.
  intros Hm Hk w. specialize (Hm w). unfold mbind.
  destruct (m w) as [[a|msg|c] w']; [apply Hk|exact I|exact Hm].
Qed.

Ltac exits_tac :=
  repeat first
    [ apply exits_mbind; intros
    | apply exits_ret | apply exits_raise | apply exits_get_state | apply exits_put_state
    | apply exits_emit | apply exits_save | apply exits_path_of | apply exits_for_folders
    | apply exits_confirm; simpl; tauto
    | progress unfold mark_completed
    | match goal with
      | |- exits_declined (if ?b then _ else _) => destruct b
      | |- exits_declined (match ?x with _ => _ end) => destruct x
      end ].

Lemma exits_step1 : exits_declined (step1_job_search cfg ev).
Proof. unfold step1_job_search. exits_tac. Qed.

Lemma exits_step2 jso : exits_declined (step2_folder_creation cfg ev jso).
Proof. unfold step2_folder_creation. exits_tac. Qed.

Lemma exits_step3 fs : exits_declined (step3_ai_tailoring cfg ev fs).
Proof. unfold step3_ai_tailoring. exits_tac. Qed.

Lemma exits_step4 fs : exits_declined (step4_build_pdfs cfg ev fs).
Proof. unfold step4_build_pdfs. exits_tac. Qed.

Lemma exits_run_body rf :
  exits_declined
    (job_search_output <--
       (if resume_at rf ["step1"; "beginning"] then step1_job_search cfg ev
        else s <-- get_state;;
             p <-- path_of (Workflow.job_search_output (data s));; ret (Some p));;
     match job_search_output with
     | None => ret tt
     | Some jso =>
         resume_folders <--
           (if resume_at rf ["step1"; "step2"; "beginning"]
            then step2_folder_creation cfg ev jso
            else s <-- get_state;;
                 ret (match created_folders (data s) with Some l => l | None => [] end));;
         match resume_folders with
         | [] => ret tt
         | _ =>
             (if resume_at rf ["step1"; "step2"; "step3"; "beginning"]
              then step3_ai_tailoring cfg ev resume_folders else ret tt);;;
             (if resume_at rf ["step1"; "step2"; "step3"; "step4"; "beginning"]
              then step4_build_pdfs cfg ev resume_folders else ret tt)
         end
     end).
Proof.
  apply exits_mbind.
  - destruct (resume_at rf _); [apply exits_step1|exits_tac].
  - intros [jso|]; [|apply exits_ret]. apply exits_mbind.
    + destruct (resume_at rf _); [apply exits_step2|exits_tac].
    + intros [|f fs]; [apply exits_ret|]. apply exits_mbind.
      * destruct (resume_at rf _); [apply exits_step3|apply exits_ret].
      * intros _. destruct (resume_at rf _); [apply exits_step4|apply exits_ret].
Qed.

(** ** The state file with [save_state] off *)

Definition file_kept {A} (m : M A) : Prop := forall w, state_file (snd (m w)) = state_file w.

Lemma file_kept_keeps {A} (m : M A) : keeps m -> file_kept m.
Proof. intros H w. rewrite H. reflexivity. Qed.

Lemma file_kept_mbind {A B} (m : M A) (k : A -> M B) :
  file_kept m -> (forall a, file_kept (k a)) -> file_kept (mbind m k).
Proof.
  intros Hm Hk w. specialize (Hm w). unfold mbind.
  destruct (m w) as [[a|msg|c] w']; cbn [snd] in *; [rewrite Hk|..]; exact Hm.
Qed.

Lemma file_kept_emit e : file_kept (emit e).
Proof. intros w. reflexivity. Qed.

Lemma file_kept_put_state s : file_kept (put_state s).
Proof. intros w. reflexivity. Qed.

Section NoSave.

Hypothesis no_save : save_state cfg = false.

Lemma file_kept_save : file_kept (save cfg).
Proof. intros w. unfold save. rewrite no_save. reflexivity. Qed.

Ltac file_tac :=
  repeat first
    [ apply file_kept_mbind; intros
    | apply file_kept_emit | apply file_kept_put_state | apply file_kept_save
    | apply file_kept_keeps; solve [keeps_tac]
    | progress unfold mark_completed
    | match goal with
      | |- file_kept (if ?b then _ else _) => destruct b
      | |- file_kept (match ?x with _ => _ end) => destruct x
      end ].

Lemma file_kept_run rf : file_kept (run cfg ev rf).
Proof.
  intros w. unfold run. rewrite catch_exit_world. revert w. fold (file_kept (A:=unit)).
  apply file_kept_mbind.
  - destruct (resume_at rf _); [unfold step1_job_search|]; file_tac.
  - intros [jso|]; [|file_tac]. apply file_kept_mbind.
    + destruct (resume_at rf _); [unfold step2_folder_creation|]; file_tac.
    + intros [|f fs]; [file_tac|]. apply file_kept_mbind.
      * destruct (resume_at rf _); [unfold step3_ai_tailoring|]; file_tac.
      * intros _. destruct (resume_at rf _); [unfold step4_build_pdfs|]; file_tac.
Qed.

End NoSave.

Lemma catch_exit_status {A} (m : M A) w :
  exits_declined m ->
  (exists a, fst (catch_all m (fun _ => exit 1) w) = Ret a) \/
  fst (catch_all m (fun _ => exit 1) w) = Exit 1 \/
  (fst (catch_all m (fun _ => exit 1) w) = Exit 0 /\
   exists p, In p prompts /\ answer ev p = false).
Proof.
  intros H. specialize (H w). unfold catch_all.
  destruct (m w) as [[a|msg|c] w']; cbn [fst] in *.
  - left. exists a. reflexivity.
  - right. left. reflexivity.
  - destruct H as [-> Hp]. right. right. split; [reflexivity|exact Hp].
Qed.

(** run() ends in one of three ways: it returns normally, it exits with
    status 1 (the [except Exception] handler), or it exits with status 0,
    and then only because the user declined one of the three
    "Continue to next step" prompts. *)
Theorem run_exit_status rf w :
  fst (run cfg ev rf w) = Ret tt \/ fst (run cfg ev rf w) = Exit 1 \/
  (fst (run cfg ev rf w) = Exit 0 /\ exists p, In p prompts /\ answer ev p = false).
Proof.
  unfold run.
  destruct (catch_exit_status _ w (exits_run_body rf)) as [[[] H]|H]; [left; exact H|right; exact H].
Qed.

(** Resuming with [--resume-from step2] starts no step-1 body; with
    [step3] only step-3 and step-4 bodies; with [step4] only the step-4
    body. *)
Theorem resume_from_later_step w :
  (exists new, trace (snd (run cfg ev (Some "step2") w)) = (trace w ++ new)%list /\
     Forall (fun e => e <> Body1) new) /\
  (exists new, trace (snd (run cfg ev (Some "step3") w)) = (trace w ++ new)%list /\
     Forall (fun e => exists fs, e = Body3 fs \/ e = Body4 fs) new) /\
  (exists new, trace (snd (run cfg ev (Some "step4") w)) = (trace w ++ new)%list /\
     Forall (fun e => exists fs, e = Body4 fs) new).
Proof.
  split; [|split]; apply adds_run;
    solve [intros H; vm_compute in H; discriminate H
          | intros; discriminate
          | intros; eexists; left; reflexivity
          | intros; eexists; right; reflexivity
          | intros; eexists; reflexivity].
Qed.

(** With job search disabled and step 1 not recorded as completed, a run
    that starts at step 1 stops at once: it returns normally, starts no
    body and leaves the state and the state file as they were. *)
Theorem run_job_search_disabled rf w :
  job_search_enabled cfg = false ->
  ~ In "step1_job_search" (completed_steps (state w)) ->
  resume_at rf ["step1"; "beginning"] = true ->
  run cfg ev rf w = (Ret tt, w).
Proof.
  intros Hen Hn Hr.
  assert (Hin : in_steps "step1_job_search" (state w) = false).
  { destruct (in_steps _ _) eqn:E; [apply in_steps_In in E; contradiction|reflexivity]. }
  unfold run. rewrite Hr. unfold catch_all, mbind at 1. unfold step1_job_search.
  rewrite bind_get, Hin, Hen. reflexivity.
Qed.

(** Resuming at step 4 from a state that records the search output and
    the folders but no job title (the title is written only by step 2):
    the step-4 body starts on the folders, the build of the first folder
    fails because the command list holds [None], and without
    [continue_on_error] run() exits with status 1, with the state and the
    state file unchanged. *)
Theorem resume_step4_without_title w o f fs :
  job_search_output (data (state w)) = Some o ->
  created_folders (data (state w)) = Some (f :: fs) ->
  job_title (data (state w)) = None ->
  ~ In "step4_build_pdfs" (completed_steps (state w)) ->
  build_enabled cfg = true ->
  continue_on_error cfg = false ->
  run cfg ev (Some "step4") w =
  (Exit 1, mkWorld (state w) (state_file w) (trace w ++ [Body4 (f :: fs)])%list).
Proof.
  intros Hj Hc Ht Hn Hb Hce.
  assert (Hin : in_steps "step4_build_pdfs" (state w) = false).
  { destruct (in_steps _ _) eqn:E; [apply in_steps_In in E; contradiction|reflexivity]. }
  unfold run.
  change (resume_at (Some "step4") ["step1"; "beginning"]) with false.
  change (resume_at (Some "step4") ["step1"; "step2"; "beginning"]) with false.
  change (resume_at (Some "step4") ["step1"; "step2"; "step3"; "beginning"]) with false.
  change (resume_at (Some "step4") ["step1"; "step2"; "step3"; "step4"; "beginning"]) with true.
  unfold catch_all, mbind at 1. cbv iota beta. rewrite bind_get, Hj.
  cbv [path_of ret mbind get_state]. rewrite Hc.
  unfold step4_build_pdfs. rewrite bind_get, Hin, Hb. cbn [negb]. rewrite bind_emit.
  cbn [state data]. rewrite Ht. cbn [for_folders].
  unfold mbind. cbn [state_file trace]. rewrite Hce. reflexivity.
Qed.

(** With [save_state] off, run() never writes the state file. *)
Theorem run_without_save_state_keeps_file rf w :
  save_state cfg = false -> state_file (snd (run cfg ev rf w)) = state_file w.
Proof. intros H. apply (file_kept_run H). Qed.

End Facts.

Definition cfg_no_search : config := mkConfig true false true true true true true true false.
Definition cfg_no_save : config := mkConfig false true true true true true true true false.

Lemma run_job_search_disabled_witness :
  run cfg_no_search WorkflowExamples.yes_env None (start cfg_no_search None) =
  (Ret tt, start cfg_no_search None).
Proof.
  apply run_job_search_disabled; [reflexivity|simpl; tauto|reflexivity].
Defined.

Definition state_after_step2 : wstate :=
  mkState ["step1_job_search"; "step2_folder_creation"]
          (mkData (Some "o.json") (Some ["/tmp/a"; "/tmp/b"]) None).

Definition start_after_step2 : world :=
  start WorkflowExamples.default_cfg (Some state_after_step2).

Lemma resume_step4_without_title_witness :
  run WorkflowExamples.default_cfg WorkflowExamples.yes_env (Some "step4") start_after_step2 =
  (Exit 1, mkWorld (state start_after_step2) (state_file start_after_step2)
                   (trace start_after_step2 ++ [Body4 ["/tmp/a"; "/tmp/b"]])%list).
Proof.
  apply (resume_step4_without_title _ _ _ "o.json" "/tmp/a" ["/tmp/b"]);
    [reflexivity|reflexivity|reflexivity|simpl; intuition discriminate|reflexivity|reflexivity].
Defined.

Lemma run_without_save_state_keeps_file_witness :
  state_file (snd (run cfg_no_save WorkflowExamples.yes_env None
                       (mkWorld empty_state (Some state_after_step2) []))) =
  Some state_after_step2.
Proof. apply (run_without_save_state_keeps_file cfg_no_save). reflexivity. Defined.

End WorkflowFacts.
